(** * SAFE-LINK: evidence aggregation ([F_Data]) and verdict scoring ([F_VF])

    A shallow embedding of the terminal scanner (the TypeScript program whose
    entry point is [F_UI]) and the properties of its two core functions.

    Conventions of the embedding.
    - A JavaScript string is a [string]: one [ascii] per code unit, so the
      model ranges over strings whose code units are below 256.
    - A thrown value is an [Exn]; a function that may throw returns
      [Exn + A], with [inl] for the exception.
    - An optional field ([geo?], [http?], ...) is an [option].
    - The network, the file system, the clock and the environment variable
      are the fields of an [Env]; each call to the outside is logged in a
      trace, so that "was attempted" is a statement about the trace.
    - [new URL(u).hostname] is a parameter of the development
      ([URL_hostname]): the platform's URL parser is not part of the
      program. *)

From Stdlib Require Import ZArith String Ascii List Bool Lia DecimalString.
Import ListNotations.

Local Open Scope string_scope.
Local Open Scope Z_scope.

(* ===================================================================== *)
(** * JavaScript string primitives used by the program                    *)
(* ===================================================================== *)

Module Js.

(** Code units below 256 that [String.prototype.trim] removes: the
    WhiteSpace and LineTerminator productions restricted to one byte
    (TAB, LF, VT, FF, CR, SP, NBSP). *)
Definition isWhiteSpace (c : ascii) : bool :=
  let n := nat_of_ascii c in
  ((9 <=? n) && (n <=? 13))%nat || (n =? 32)%nat || (n =? 160)%nat.

Fixpoint trimStart (s : string) : string :=
  match s with
  | EmptyString => EmptyString
  | String c s' => if isWhiteSpace c then trimStart s' else s
  end.

(** [trimEnd] keeps a character when it is not white space or when
    something survives after it. *)
Fixpoint trimEnd (s : string) : string :=
  match s with
  | EmptyString => EmptyString
  | String c s' =>
      match trimEnd s' with
      | EmptyString => if isWhiteSpace c then EmptyString else String c EmptyString
      | t => String c t
      end
  end.

Definition trim (s : string) : string := trimEnd (trimStart s).

(** [toLowerCase] on one code unit of the Latin-1 range: A-Z and the
    upper-case letters U+00C0..U+00DE (U+00D7, the multiplication sign,
    excepted) move up by 32. *)
Definition lowerChar (c : ascii) : ascii :=
  let n := nat_of_ascii c in
  if (((65 <=? n) && (n <=? 90))
      || ((192 <=? n) && (n <=? 222) && negb (n =? 215)))%nat
  then ascii_of_nat (n + 32) else c.

Fixpoint toLowerCase (s : string) : string :=
  match s with
  | EmptyString => EmptyString
  | String c s' => String (lowerChar c) (toLowerCase s')
  end.

(** [s.startsWith(p)] *)
Definition startsWith (s p : string) : bool := String.prefix p s.

(** [s.slice(n)] for [0 <= n]. *)
Definition slice (s : string) (n : nat) : string :=
  substring n (String.length s - n) s.

(** Case-insensitive comparison of one code unit as a regular expression
    with the [i] flag (and without [u]) performs it: both sides are
    canonicalised by upper-casing, and a code unit of 128 or more is
    never canonicalised to one below 128.  The only patterns of the
    program are ASCII, so comparing after upper-casing a-z is exact. *)
Definition canonicalize (c : ascii) : ascii :=
  let n := nat_of_ascii c in
  if ((97 <=? n) && (n <=? 122))%nat then ascii_of_nat (n - 32) else c.

Definition ciEq (p c : ascii) : bool :=
  Ascii.eqb (canonicalize p) (canonicalize c).

(** Anchored case-insensitive match of a literal: [/^lit/i.test(s)]. *)
Fixpoint ciPrefix (lit s : string) : bool :=
  match lit, s with
  | EmptyString, _ => true
  | String _ _, EmptyString => false
  | String p lit', String c s' => ciEq p c && ciPrefix lit' s'
  end.

(** Template-literal rendering of an integer-valued number. *)
Definition showZ (z : Z) : string := NilZero.string_of_int (Z.to_int z).
Definition showNat (n : nat) : string := NilZero.string_of_uint (Nat.to_uint n).

(** [arr.push(x)] *)
Definition push {A : Type} (arr : list A) (x : A) : list A :=
  (arr ++ [x])%list.

(** Truthiness of a string: only the empty string is falsy. *)
Definition truthy (s : string) : bool :=
  match s with EmptyString => false | _ => true end.

End Js.

(* ===================================================================== *)
(** * Types                                                               *)
(* ===================================================================== *)

Record Geo := mkGeo {
  city : option string;
  region : option string;
  country : option string;
  isp : option string;
  source : option string
}.

(** [timeSec] is [(end - start) / 1000]; the model keeps the integer number
    of milliseconds [end - start]. *)
Record HttpInfo := mkHttpInfo {
  status : Z;
  timeMs : Z;
  finalUrl : string;
  headers : list (string * string)
}.

Record TlsInfo := mkTlsInfo {
  subject : option string;
  issuer : option string;
  valid_from : option string;
  valid_to : option string;
  fingerprint256 : option string
}.

Record RawData := mkRawData {
  targetUrl : string;
  host : string;
  whoisDomain : string;
  ips : list string;
  geo : option Geo;
  http : option HttpInfo;
  tls : option TlsInfo;
  whois : option (list (string * string));
  errors : list string;
  savedFilePath : string
}.

(** Functional field updates of a [RawData] and of an [HttpInfo]. *)
Definition set_targetUrl (u : string) (d : RawData) : RawData :=
  mkRawData u (host d) (whoisDomain d) (ips d) (geo d) (http d) (tls d)
            (whois d) (errors d) (savedFilePath d).
Definition set_host (h : string) (d : RawData) : RawData :=
  mkRawData (targetUrl d) h (whoisDomain d) (ips d) (geo d) (http d) (tls d)
            (whois d) (errors d) (savedFilePath d).
Definition set_http (h : option HttpInfo) (d : RawData) : RawData :=
  mkRawData (targetUrl d) (host d) (whoisDomain d) (ips d) (geo d) h (tls d)
            (whois d) (errors d) (savedFilePath d).
Definition set_tls (t : option TlsInfo) (d : RawData) : RawData :=
  mkRawData (targetUrl d) (host d) (whoisDomain d) (ips d) (geo d) (http d) t
            (whois d) (errors d) (savedFilePath d).
Definition set_whois (w : option (list (string * string))) (d : RawData)
  : RawData :=
  mkRawData (targetUrl d) (host d) (whoisDomain d) (ips d) (geo d) (http d)
            (tls d) w (errors d) (savedFilePath d).
Definition set_errors (es : list string) (d : RawData) : RawData :=
  mkRawData (targetUrl d) (host d) (whoisDomain d) (ips d) (geo d) (http d)
            (tls d) (whois d) es (savedFilePath d).
Definition set_status (s : Z) (h : HttpInfo) : HttpInfo :=
  mkHttpInfo s (timeMs h) (finalUrl h) (headers h).
Definition set_finalUrl (u : string) (h : HttpInfo) : HttpInfo :=
  mkHttpInfo (status h) (timeMs h) u (headers h).

Inductive Label := SAFE | CAUTION | RISKY.

Record Verdict := mkVerdict {
  stars : Z;
  label : Label;
  reasons : list string
}.

(** The object literal [{ stars, label, reasons: ... }] seen as a JavaScript
    object: the value of a property, [None] for a key the object lacks. *)
Inductive JsValue :=
| JNum (n : Z)
| JStr (s : string)
| JArr (l : list string).

Definition labelText (l : Label) : string :=
  match l with SAFE => "SAFE" | CAUTION => "CAUTION" | RISKY => "RISKY" end.

Definition Verdict_get (v : Verdict) (key : string) : option JsValue :=
  if String.eqb key "stars" then Some (JNum (stars v))
  else if String.eqb key "label" then Some (JStr (labelText (label v)))
  else if String.eqb key "reasons" then Some (JArr (reasons v))
  else None.

(* ===================================================================== *)
(** * Helpers                                                             *)
(* ===================================================================== *)

(** [/^https?:\/\//i.test(s)] *)
Definition hasHttpPrefix (s : string) : bool :=
  Js.ciPrefix "http://" s || Js.ciPrefix "https://" s.

Definition normalizeUrl (raw : string) : string :=
  let s := Js.trim raw in
  if negb (hasHttpPrefix s) then "https://" ++ s else s.

Definition stripWww (host : string) : string :=
  if Js.startsWith host "www." then Js.slice host 4 else host.

(** A thrown value, with the text that [e?.message ?? String(e)] yields. *)
Record Exn := mkExn { exn_name : string; message : string }.

Definition InvalidURL : Exn := mkExn "TypeError" "Invalid URL".

(** [s.replace(/[^a-zA-Z0-9._-]+/g, "_")]: every maximal run of characters
    outside the class becomes one underscore. *)
Definition isFilenameChar (c : ascii) : bool :=
  let n := nat_of_ascii c in
  (((97 <=? n) && (n <=? 122)) || ((65 <=? n) && (n <=? 90))
   || ((48 <=? n) && (n <=? 57))
   || (n =? 46) || (n =? 95) || (n =? 45))%nat.

Fixpoint safeFilename_from (inRun : bool) (s : string) : string :=
  match s with
  | EmptyString => EmptyString
  | String c s' =>
      if isFilenameChar c then String c (safeFilename_from false s')
      else if inRun then safeFilename_from true s'
      else String "_"%char (safeFilename_from true s')
  end.

Definition safeFilename (s : string) : string := safeFilename_from false s.

(* ===================================================================== *)
(** * The outside world                                                   *)
(* ===================================================================== *)

(** One entry of [dns.lookup(host, { all: true })]. *)
Record DnsEntry := mkDnsEntry { address : string; family : Z }.

(** What [F_Data] reads of the ipinfo.io answer. *)
Record IpInfoData := mkIpInfoData {
  ii_city : option string;
  ii_region : option string;
  ii_country : option string;
  ii_org : option string
}.

(** What [F_Data] reads of the ipwho.is answer ([connection?.isp]). *)
Record IpWhoData := mkIpWhoData {
  iw_city : option string;
  iw_region : option string;
  iw_country : option string;
  iw_connection_isp : option string
}.

(** The peer certificate returned by [getTlsCert]. *)
Record Cert := mkCert {
  cert_subject : option string;
  cert_issuer : option string;
  cert_valid_from : option string;
  cert_valid_to : option string;
  cert_fingerprint256 : option string
}.

(** The environment of one run.  Every service answers with a value or
    throws; what happens inside [httpRequest] (HEAD probe, GET re-issue,
    timer), inside [getTlsCert] (socket events) and inside the two
    geolocation requests (fetch, status check, JSON decoding, including
    the [TypeError] of reading a field of a [null] answer) is the
    service's outcome. *)
Record Env := mkEnv {
  IPINFO_TOKEN : string;
  dns_lookup : string -> Exn + list DnsEntry;
  ipinfo_io : string -> Exn + IpInfoData;
  ipwho_is : string -> Exn + IpWhoData;
  http_exchange : string -> Exn + HttpInfo;
  tls_connect : string -> Exn + Cert;
  whois_query : string -> Exn + list (string * string);
  fs_mkdir : string -> Exn + unit;
  fs_writeFile : string -> string -> Exn + unit;
  process_cwd : Exn + string;            (* throws when the directory is gone *)
  path_resolve : string -> string -> string;
  path_join : string -> string -> string;
  nowStamp : string
}.

(** Calls to the outside, in the order they are issued. *)
Inductive Call :=
| Call_dns_lookup (host : string)
| Call_ipinfo_io (ip : string)
| Call_ipwho_is (ip : string)
| Call_httpRequest (url : string)
| Call_getTlsCert (host : string)
| Call_whois (domain : string)
| Call_mkdir (dir : string)
| Call_writeFile (path text : string).

Definition Trace := list Call.

(** A computation that may throw and that logs its calls; the log survives
    an exception. *)
Definition M (A : Type) : Type := Trace -> (Exn + A) * Trace.

Definition ret {A} (a : A) : M A := fun t => (inr a, t).

Definition throw {A} (e : Exn) : M A := fun t => (inl e, t).

Definition bind {A B} (m : M A) (k : A -> M B) : M B :=
  fun t =>
    match m t with
    | (inr a, t') => k a t'
    | (inl e, t') => (inl e, t')
    end.

(** [try { body } catch (e) { handler }] *)
Definition try_catch {A} (body : M A) (handler : Exn -> M A) : M A :=
  fun t =>
    match body t with
    | (inr a, t') => (inr a, t')
    | (inl e, t') => handler e t'
    end.

(** A call to the outside: logged, then answered. *)
Definition call {A} (c : Call) (answer : Exn + A) : M A :=
  fun t => (answer, Js.push t c).

Definition lift {A} (r : Exn + A) : M A := fun t => (r, t).

Declare Scope js_scope.
Delimit Scope js_scope with js.
Notation "x <- c ;; k" := (bind c (fun x => k))
  (at level 61, c at next level, right associativity) : js_scope.
Notation "' pat <- c ;; k" := (bind c (fun x => match x with pat => k end))
  (at level 61, pat pattern, c at next level, right associativity) : js_scope.

(** Outcome and trace of a whole run (started with an empty log). *)
Definition run {A} (m : M A) : (Exn + A) * Trace := m [].
Definition outcome {A} (m : M A) : Exn + A := fst (run m).
Definition calls {A} (m : M A) : Trace := snd (run m).

(* ===================================================================== *)
(** * The program                                                         *)
(* ===================================================================== *)

Section Program.

(** [new URL(url).hostname]; [None] when the constructor throws. *)
Variable URL_hostname : string -> option string.

(** [formatRawTxt]: the text of the report.  It reads every field but
    [savedFilePath] and never throws; no property below depends on the
    text. *)
Variable formatRawTxt : RawData -> string.

Variable env : Env.

Definition getHost (url : string) : Exn + string :=
  match URL_hostname url with
  | Some h => inr h
  | None => inl InvalidURL
  end.

(** ** GEO lookups *)

Definition ipInfoLookup (ip : string) : M IpInfoData :=
  if negb (Js.truthy (IPINFO_TOKEN env))
  then throw (mkExn "Error" "Missing IPINFO_TOKEN")
  else call (Call_ipinfo_io ip) (ipinfo_io env ip).

Definition ipGeoFallback (ip : string) : M IpWhoData :=
  call (Call_ipwho_is ip) (ipwho_is env ip).

Definition httpRequest (url : string) : M HttpInfo :=
  call (Call_httpRequest url) (http_exchange env url).

Definition getTlsCert (domain : string) : M Cert :=
  call (Call_getTlsCert domain) (tls_connect env domain).

(** ** F_DATA(URL_CLICK) *)

Local Open Scope js_scope.

Definition F_Data (urlClick : string) : M RawData :=
  let errors : list string := [] in
  let targetUrl := normalizeUrl urlClick in
  host <- lift (getHost targetUrl) ;;
  let whoisDomain := stripWww host in
  (* DNS/IP *)
  '(ips, errors) <-
     try_catch
       (results <- call (Call_dns_lookup host) (dns_lookup env host) ;;
        ret (map address results, errors))
       (fun e => ret ([], Js.push errors ("IP ERROR: " ++ message e))) ;;
  (* GEO *)
  '(geo, errors) <-
     match ips with
     | ip :: _ =>
         '(geo, errors) <-
            (if Js.truthy (IPINFO_TOKEN env) then
               try_catch
                 (d <- ipInfoLookup ip ;;
                  ret (Some (mkGeo (ii_city d) (ii_region d) (ii_country d)
                                   (ii_org d) (Some "ipinfo")), errors))
                 (fun e =>
                    ret (None, Js.push errors ("GEO ERROR (ipinfo): " ++ message e)))
             else ret (None, errors)) ;;
         match geo with
         | None =>
             try_catch
               (g <- ipGeoFallback ip ;;
                ret (Some (mkGeo (iw_city g) (iw_region g) (iw_country g)
                                 (iw_connection_isp g) (Some "ipwho.is")),
                     errors))
               (fun e =>
                  ret (None, Js.push errors ("GEO ERROR (fallback): " ++ message e)))
         | Some _ => ret (geo, errors)
         end
     | [] => ret (None, Js.push errors "No IP addresses resolved from DNS")
     end ;;
  (* HTTP *)
  '(http, errors) <-
     try_catch
       (h <- httpRequest targetUrl ;; ret (Some h, errors))
       (fun e => ret (None, Js.push errors ("HTTP ERROR: " ++ message e))) ;;
  (* TLS *)
  '(tlsInfo, errors) <-
     try_catch
       (cert <- getTlsCert host ;;
        ret (Some (mkTlsInfo (cert_subject cert) (cert_issuer cert)
                             (cert_valid_from cert) (cert_valid_to cert)
                             (cert_fingerprint256 cert)), errors))
       (fun e => ret (None, Js.push errors ("SSL ERROR: " ++ message e))) ;;
  (* WHOIS *)
  '(whoisData, errors) <-
     try_catch
       (w <- call (Call_whois whoisDomain) (whois_query env whoisDomain) ;;
        ret (Some w, errors))
       (fun e => ret (None, Js.push errors ("WHOIS ERROR: " ++ message e))) ;;
  (* Save .txt *)
  cwd <- lift (process_cwd env) ;;
  let outDir := path_resolve env cwd "output" in
  _ <- call (Call_mkdir outDir) (fs_mkdir env outDir) ;;
  let fileName :=
    "rawdata-" ++ safeFilename whoisDomain ++ "-" ++ nowStamp env ++ ".txt" in
  let savedFilePath := path_join env outDir fileName in
  let txt :=
    formatRawTxt
      (mkRawData targetUrl host whoisDomain ips geo http tlsInfo whoisData
                 errors "") in
  _ <- call (Call_writeFile savedFilePath txt)
            (fs_writeFile env savedFilePath txt) ;;
  ret (mkRawData targetUrl host whoisDomain ips geo http tlsInfo whoisData
                 errors savedFilePath).

Local Close Scope js_scope.

(** ** F_VF (interpret/grade) *)

(** The two locals of [F_VF]: [score] and [reasons]. *)
Definition Locals : Type := Z * list string.

(** [score += k; reasons.push(r)] *)
Definition penalize (k : Z) (r : string) (st : Locals) : Locals :=
  (fst st + k, Js.push (snd st) r).

(** [reasons.push(r)] *)
Definition remark (r : string) (st : Locals) : Locals :=
  (fst st, Js.push (snd st) r).

Definition isHttps (d : RawData) : bool :=
  Js.startsWith (Js.toLowerCase (targetUrl d)) "https://".

(* HTTPS? *)
Definition checkHttps (d : RawData) (st : Locals) : Locals :=
  if negb (isHttps d) then penalize 3 "Not using HTTPS" st
  else remark "Uses HTTPS" st.

(* HTTP status *)
Definition checkStatus (d : RawData) (st : Locals) : Locals :=
  match http d with
  | Some h =>
      if 400 <=? status h
      then penalize 2 ("HTTP error status: " ++ Js.showZ (status h)) st
      else remark ("HTTP status OK: " ++ Js.showZ (status h)) st
  | None => penalize 2 "HTTP request failed" st
  end.

(* Redirect mismatch *)
Definition checkRedirect (d : RawData) (st : Locals) : Locals :=
  match http d with
  | Some h =>
      if Js.truthy (finalUrl h) then
        match getHost (finalUrl h) with
        | inr finalHost =>
            if negb (String.eqb (stripWww finalHost) (stripWww (host d)))
            then penalize 2 ("Redirected to different host: " ++ finalHost) st
            else st
        | inl _ => penalize 1 "Could not parse final redirect URL" st
        end
      else st
  | None => st
  end.

(* Missing TLS *)
Definition checkTls (d : RawData) (st : Locals) : Locals :=
  match tls d with
  | None => penalize 3 "No TLS certificate info" st
  | Some _ => remark "TLS certificate present" st
  end.

(* Missing WHOIS *)
Definition checkWhois (d : RawData) (st : Locals) : Locals :=
  match whois d with
  | None => penalize 1 "WHOIS lookup missing or failed" st
  | Some _ => remark "WHOIS data found" st
  end.

(* Errors *)
Definition checkErrors (d : RawData) (st : Locals) : Locals :=
  match errors d with
  | [] => st
  | _ :: _ =>
      penalize 1 ("Errors encountered: " ++ Js.showNat (length (errors d))) st
  end.

(** The locals when control reaches "Score -> Stars/Label". *)
Definition F_VF_locals (d : RawData) : Locals :=
  checkErrors d
    (checkWhois d
       (checkTls d
          (checkRedirect d
             (checkStatus d
                (checkHttps d (0, [])))))).

Definition F_VF_score (d : RawData) : Z := fst (F_VF_locals d).
Definition F_VF_reasons (d : RawData) : list string := snd (F_VF_locals d).

(* Score -> Stars/Label *)
Definition grade (score : Z) : Z * Label :=
  if score <=? 1 then (5, SAFE)
  else if score <=? 3 then (4, SAFE)
  else if score <=? 5 then (3, CAUTION)
  else if score <=? 7 then (2, RISKY)
  else (1, RISKY).

Definition F_VF (d : RawData) : Verdict :=
  let '(score, reasons) := F_VF_locals d in
  let '(stars, label) := grade score in
  mkVerdict stars label (firstn 8 reasons).

(** ** What one condition contributes

    Each check, run on fresh locals: the penalty it adds and the reasons
    it pushes. *)
Definition penaltyOf (check : RawData -> Locals -> Locals) (d : RawData) : Z :=
  fst (check d (0, [])).
Definition reasonsOf (check : RawData -> Locals -> Locals) (d : RawData)
  : list string :=
  snd (check d (0, [])).

(** A check only adds to the score and only appends to the reasons, and
    what it adds does not depend on the locals it starts from. *)
Definition additive (check : RawData -> Locals -> Locals) : Prop :=
  forall d st,
    check d st
    = (fst st + penaltyOf check d, (snd st ++ reasonsOf check d)%list).

(** ** What [F_VF] reads of its argument *)
Record View := mkView {
  view_https : bool;
  view_http : option (Z * string);      (* status, finalUrl *)
  view_host : string;
  view_tls : bool;
  view_whois : bool;
  view_errors : nat
}.

Definition present {A} (o : option A) : bool :=
  match o with Some _ => true | None => false end.

Definition view (d : RawData) : View :=
  mkView (isHttps d)
         (option_map (fun h => (status h, finalUrl h)) (http d))
         (host d) (present (tls d)) (present (whois d))
         (length (errors d)).

(** ** One more negative condition, everything else fixed

    [worsens d d']: [d'] is [d] with one field changed so that a scoring
    condition that was not negative in [d] is negative in [d']. *)
Inductive worsens : RawData -> RawData -> Prop :=
| worse_scheme d u :
    isHttps d = true -> isHttps (set_targetUrl u d) = false ->
    worsens d (set_targetUrl u d)
| worse_http_absent d h :
    http d = Some h -> status h < 400 ->
    worsens d (set_http None d)
| worse_http_status d h s :
    http d = Some h -> status h < 400 -> 400 <= s ->
    worsens d (set_http (Some (set_status s h)) d)
| worse_redirect d h u :
    http d = Some h ->
    penaltyOf checkRedirect d = 0 ->
    0 < penaltyOf checkRedirect (set_http (Some (set_finalUrl u h)) d) ->
    worsens d (set_http (Some (set_finalUrl u h)) d)
| worse_redirect_host d x :
    penaltyOf checkRedirect d = 0 ->
    0 < penaltyOf checkRedirect (set_host x d) ->
    worsens d (set_host x d)
| worse_tls d t :
    tls d = Some t -> worsens d (set_tls None d)
| worse_whois d w :
    whois d = Some w -> worsens d (set_whois None d)
| worse_errors d e es :
    errors d = [] -> worsens d (set_errors (e :: es) d).

End Program.

(* ===================================================================== *)
(** * Specification-side counts                                           *)
(* ===================================================================== *)

(** Number of absent optional fields among [geo], [http], [tls], [whois]:
    the count the specification compares [errors.length] with (an absent
    [geo] with no address resolved standing for the DNS failure). *)
Definition absent {A} (o : option A) : nat :=
  match o with None => 1%nat | Some _ => 0%nat end.

Definition absentOptionalFields (d : RawData) : nat :=
  (absent (geo d) + absent (http d) + absent (tls d) + absent (whois d))%nat.

Definition failed {A} (r : Exn + A) : bool :=
  match r with inl _ => true | inr _ => false end.

Definition count (b : bool) : nat := if b then 1%nat else 0%nat.

(** The addresses that the DNS step leaves in [ips]. *)
Definition resolved (env : Env) (host : string) : list string :=
  match dns_lookup env host with
  | inr results => map address results
  | inl _ => []
  end.

(** Number of sub-lookups (DNS, geolocation, HTTP, TLS, WHOIS) that end in
    failure, in the specification's sense: DNS fails when it throws or
    yields no address; geolocation runs on the first address only and fails
    when the primary provider is unavailable or fails and the fallback fails
    too. *)
Definition failedSubLookups (env : Env) (targetUrl host : string) : nat :=
  let geoFailed :=
    match resolved env host with
    | [] => false
    | ip :: _ =>
        (negb (Js.truthy (IPINFO_TOKEN env)) || failed (ipinfo_io env ip))
        && failed (ipwho_is env ip)
    end in
  (count (match resolved env host with [] => true | _ => false end)
   + count geoFailed
   + count (failed (http_exchange env targetUrl))
   + count (failed (tls_connect env host))
   + count (failed (whois_query env (stripWww host))))%nat.

(** The score-to-verdict table of the specification, row by row. *)
Inductive threshold_row : Z -> Z -> Label -> Prop :=
| row_0_1 s : 0 <= s <= 1 -> threshold_row s 5 SAFE
| row_2_3 s : 2 <= s <= 3 -> threshold_row s 4 SAFE
| row_4_5 s : 4 <= s <= 5 -> threshold_row s 3 CAUTION
| row_6_7 s : 6 <= s <= 7 -> threshold_row s 2 RISKY
| row_8_up s : 8 <= s -> threshold_row s 1 RISKY.

(** No white space at either end: [trim] has nothing to remove. *)
Fixpoint lastIsWhiteSpace (s : string) : bool :=
  match s with
  | EmptyString => false
  | String c EmptyString => Js.isWhiteSpace c
  | String _ s' => lastIsWhiteSpace s'
  end.

Definition bare (s : string) : bool :=
  match s with
  | EmptyString => true
  | String c _ => negb (Js.isWhiteSpace c) && negb (lastIsWhiteSpace s)
  end.

(** The credentialed provider was asked (a token is configured and an
    address was resolved) and failed. *)
Definition primaryFailed (env : Env) (ips : list string) : bool :=
  match ips with
  | ip :: _ => Js.truthy (IPINFO_TOKEN env) && failed (ipinfo_io env ip)
  | [] => false
  end.

(** The requests sent to geolocation providers, in order. *)
Definition isGeoCall (c : Call) : bool :=
  match c with
  | Call_ipinfo_io _ | Call_ipwho_is _ => true
  | _ => false
  end.

Definition geoCalls (t : Trace) : list Call := filter isGeoCall t.

(** The provider policy of the specification: an ordered chain of attempts,
    tried in sequence until the first success.  The result is the list of
    attempts made and the first success, if any. *)
Fixpoint firstSuccess {A} (chain : list (Call * (Exn + A)))
  : list Call * option A :=
  match chain with
  | [] => ([], None)
  | (c, inr a) :: _ => ([c], Some a)
  | (c, inl _) :: rest =>
      let '(cs, r) := firstSuccess rest in (c :: cs, r)
  end.

Definition answerMap {A B} (f : A -> B) (r : Exn + A) : Exn + B :=
  match r with inl e => inl e | inr a => inr (f a) end.

(** The chain for one address: the credentialed provider if a credential
    is configured, then the provider that needs none. *)
Definition geoProviders (env : Env) (ip : string) : list (Call * (Exn + Geo)) :=
  ((if Js.truthy (IPINFO_TOKEN env)
    then [(Call_ipinfo_io ip,
           answerMap (fun d => mkGeo (ii_city d) (ii_region d) (ii_country d)
                                     (ii_org d) (Some "ipinfo"))
                     (ipinfo_io env ip))]
    else [])
   ++ [(Call_ipwho_is ip,
        answerMap (fun g => mkGeo (iw_city g) (iw_region g) (iw_country g)
                                  (iw_connection_isp g) (Some "ipwho.is"))
                  (ipwho_is env ip))])%list.

(** ** The evidence in closed form

    What the specification says of each sub-lookup: a failure appends one
    entry to [errors] and leaves the field absent, a success fills the
    field and appends nothing. *)
Definition errorOf {A} (prefix : string) (answer : Exn + A) : list string :=
  match answer with
  | inl e => [prefix ++ message e]
  | inr _ => []
  end.

Definition fieldOf {A} (answer : Exn + A) : option A :=
  match answer with
  | inl _ => None
  | inr a => Some a
  end.

Definition tlsInfoOf (cert : Cert) : TlsInfo :=
  mkTlsInfo (cert_subject cert) (cert_issuer cert) (cert_valid_from cert)
            (cert_valid_to cert) (cert_fingerprint256 cert).

(** The geolocation step on the resolved addresses: the attempts made, the
    field, and the entries it appends to [errors]. *)
Definition geoAttempts (env : Env) (ips : list string) : list Call :=
  match ips with
  | ip :: _ => fst (firstSuccess (geoProviders env ip))
  | [] => []
  end.

Definition geoField (env : Env) (ips : list string) : option Geo :=
  match ips with
  | ip :: _ => snd (firstSuccess (geoProviders env ip))
  | [] => None
  end.

Definition geoErrors (env : Env) (ips : list string) : list string :=
  match ips with
  | ip :: _ =>
      ((if Js.truthy (IPINFO_TOKEN env)
        then errorOf "GEO ERROR (ipinfo): " (ipinfo_io env ip) else [])
       ++ (if negb (Js.truthy (IPINFO_TOKEN env)) || failed (ipinfo_io env ip)
           then errorOf "GEO ERROR (fallback): " (ipwho_is env ip) else []))%list
  | [] => ["No IP addresses resolved from DNS"]
  end.

Definition evidence (env : Env) (targetUrl host path : string) : RawData :=
  let ips := resolved env host in
  mkRawData targetUrl host (stripWww host) ips
            (geoField env ips)
            (fieldOf (http_exchange env targetUrl))
            (option_map tlsInfoOf (fieldOf (tls_connect env host)))
            (fieldOf (whois_query env (stripWww host)))
            (errorOf "IP ERROR: " (dns_lookup env host)
             ++ geoErrors env ips
             ++ errorOf "HTTP ERROR: " (http_exchange env targetUrl)
             ++ errorOf "SSL ERROR: " (tls_connect env host)
             ++ errorOf "WHOIS ERROR: " (whois_query env (stripWww host)))%list
            path.

(** The lookups of one run, in the order they are issued. *)
Definition lookups (env : Env) (targetUrl host : string) : Trace :=
  ([Call_dns_lookup host] ++ geoAttempts env (resolved env host)
   ++ [Call_httpRequest targetUrl; Call_getTlsCert host;
       Call_whois (stripWww host)])%list.

Definition outDirOf (env : Env) (cwd : string) : string :=
  path_resolve env cwd "output".

Definition reportPath (env : Env) (cwd host : string) : string :=
  path_join env (outDirOf env cwd)
            ("rawdata-" ++ safeFilename (stripWww host) ++ "-" ++ nowStamp env
             ++ ".txt").

(** A failed lookup is recorded: its field is absent and [errors] has its
    message under the lookup's prefix. *)
Definition recorded {A B} (answer : Exn + A) (prefix : string)
           (field : option B) (errs : list string) : Prop :=
  match answer with
  | inl e => field = None /\ In (prefix ++ message e) errs
  | inr _ => True
  end.

(* ===================================================================== *)
(** * Concrete scenarios                                                  *)
(* ===================================================================== *)

Module Scenario.

(** A stand-in for the platform's URL parser on the URLs of the scenarios:
    an http(s) scheme followed by a non-empty host name of letters,
    digits, dots and hyphens, and then nothing or a path, query or
    fragment.  The host name is lower-cased.  Anything else is
    rejected. *)
Fixpoint hostPart (s : string) : string :=
  match s with
  | EmptyString => EmptyString
  | String c s' =>
      if (Ascii.eqb c "/" || Ascii.eqb c "?" || Ascii.eqb c "#")%char
      then EmptyString else String c (hostPart s')
  end.

Definition isHostChar (c : ascii) : bool :=
  let n := nat_of_ascii c in
  (((97 <=? n) && (n <=? 122)) || ((65 <=? n) && (n <=? 90))
   || ((48 <=? n) && (n <=? 57)) || (n =? 46) || (n =? 45))%nat.

Definition hostname (url : string) : option string :=
  let rest :=
    if Js.ciPrefix "https://" url then Some (Js.slice url 8)
    else if Js.ciPrefix "http://" url then Some (Js.slice url 7)
    else None in
  match rest with
  | Some r =>
      let h := hostPart r in
      if Js.truthy h && forallb isHostChar (list_ascii_of_string h)
      then Some (Js.toLowerCase h) else None
  | None => None
  end.

(** The report text of the scenarios: target and number of errors. *)
Definition report (d : RawData) : string :=
  "TARGET URL : " ++ targetUrl d ++ " ERRORS: "
    ++ Js.showNat (length (errors d)).

Definition up {A} (a : A) : Exn + A := inr a.
Definition down {A} (msg : string) : Exn + A := inl (mkExn "Error" msg).

Definition someDns : Exn + list DnsEntry :=
  up [mkDnsEntry "93.184.216.34" 4; mkDnsEntry "93.184.216.35" 4].
Definition someIpInfo : IpInfoData :=
  mkIpInfoData (Some "Norwell") (Some "Massachusetts") (Some "US")
               (Some "AS15133 Edgecast Inc.").
Definition someIpWho : IpWhoData :=
  mkIpWhoData (Some "Norwell") (Some "Massachusetts") (Some "United States")
              (Some "Edgecast Inc.").
Definition someHttp : HttpInfo :=
  mkHttpInfo 200 120 "https://example.com/" [("content-type", "text/html")].
Definition someCert : Cert :=
  mkCert (Some "CN=example.com") (Some "CN=DigiCert") (Some "Jan  1 2026")
         (Some "Jan  1 2027") (Some "AA:BB").
Definition someWhois : list (string * string) :=
  [("domainName", "EXAMPLE.COM")].

(** An environment given by the token and the outcome of each service;
    the services answer alike for every argument. *)
Definition world (token : string)
           (dns : Exn + list DnsEntry) (primary : Exn + IpInfoData)
           (fallback : Exn + IpWhoData) (probe : Exn + HttpInfo)
           (cert : Exn + Cert) (registry : Exn + list (string * string))
           (mkdir writeFile : Exn + unit) : Env :=
  {| IPINFO_TOKEN := token;
     dns_lookup := fun _ => dns;
     ipinfo_io := fun _ => primary;
     ipwho_is := fun _ => fallback;
     http_exchange := fun _ => probe;
     tls_connect := fun _ => cert;
     whois_query := fun _ => registry;
     fs_mkdir := fun _ => mkdir;
     fs_writeFile := fun _ _ => writeFile;
     process_cwd := inr "/home/user";
     path_resolve := fun a b => a ++ "/" ++ b;
     path_join := fun a b => a ++ "/" ++ b;
     nowStamp := "20260101-120000" |}.

(** Everything answers; no token is configured. *)
Definition online : Env :=
  world "" someDns (up someIpInfo) (up someIpWho) (up someHttp)
        (up someCert) (up someWhois) (up tt) (up tt).

(** No network at all: every lookup throws. *)
Definition offline : Env :=
  world "" (down "getaddrinfo ENOTFOUND example.com") (down "fetch failed")
        (down "fetch failed") (down "fetch failed")
        (down "getaddrinfo ENOTFOUND example.com")
        (down "connect ENETUNREACH") (up tt) (up tt).

(** A token is configured but ipinfo.io rejects it; ipwho.is answers. *)
Definition badToken : Env :=
  world "expired-token" someDns (down "IPinfo HTTP 403: Forbidden")
        (up someIpWho) (up someHttp) (up someCert) (up someWhois)
        (up tt) (up tt).

(** A token is configured and ipinfo.io answers. *)
Definition goodToken : Env :=
  world "valid-token" someDns (up someIpInfo) (up someIpWho) (up someHttp)
        (up someCert) (up someWhois) (up tt) (up tt).

(** Every lookup answers but the report cannot be written. *)
Definition readOnlyDisk : Env :=
  world "" someDns (up someIpInfo) (up someIpWho) (up someHttp)
        (up someCert) (up someWhois) (up tt)
        (down "EROFS: read-only file system, open").

(** Scenario A of the specification: https, status 200, TLS and WHOIS
    present, no error. *)
Definition clean : RawData :=
  mkRawData "https://example.com" "example.com" "example.com"
            ["93.184.216.34"; "93.184.216.35"]
            (Some (mkGeo (Some "Norwell") (Some "Massachusetts")
                         (Some "United States") (Some "Edgecast Inc.")
                         (Some "ipwho.is")))
            (Some someHttp)
            (Some (mkTlsInfo (Some "CN=example.com") (Some "CN=DigiCert")
                             (Some "Jan  1 2026") (Some "Jan  1 2027")
                             (Some "AA:BB")))
            (Some someWhois) []
            "/home/user/output/rawdata-example.com-20260101-120000.txt".

(** Scenario B of the specification: http (no s), nothing resolved,
    HTTP, TLS and WHOIS failed. *)
Definition dark : RawData :=
  mkRawData "http://example.com" "example.com" "example.com" [] None None
            None None
            ["IP ERROR: getaddrinfo ENOTFOUND example.com";
             "No IP addresses resolved from DNS";
             "HTTP ERROR: fetch failed";
             "SSL ERROR: getaddrinfo ENOTFOUND example.com";
             "WHOIS ERROR: connect ENETUNREACH"]
            "/home/user/output/rawdata-example.com-20260101-120000.txt".

(** The evidence of [clean] gathered elsewhere: other addresses, no
    geolocation, another report file, the target typed in capitals. *)
Definition cleanElsewhere : RawData :=
  mkRawData "HTTPS://example.com" "example.com" "example.com"
            ["2606:2800:220:1::1"] None
            (Some (mkHttpInfo 200 950 "https://example.com/" []))
            (Some (mkTlsInfo None None None None None))
            (Some []) []
            "/tmp/output/rawdata-example.com-20270101-090000.txt".

(** Scenario C of the specification: [clean], but the probe ended on
    another host. *)
Definition redirected : RawData :=
  set_http (Some (mkHttpInfo 200 310 "https://www.example.org/landing" []))
           clean.

End Scenario.

(* ===================================================================== *)
(** * The rest of the scanner: helpers, share codes, probe, prompt        *)
(* ===================================================================== *)

(** More string primitives. *)
Module JsExt.

(** The characters that need care in a literal. *)
Definition LF : ascii := ascii_of_nat 10.
Definition DQUOTE : ascii := ascii_of_nat 34.
Definition BACKSLASH : ascii := ascii_of_nat 92.

(** [s.split(sep)] for a separator of one character: at least one part,
    empty parts kept. *)
Fixpoint split (sep : ascii) (s : string) : list string :=
  match s with
  | EmptyString => [EmptyString]
  | String c s' =>
      if Ascii.eqb c sep then EmptyString :: split sep s'
      else match split sep s' with
           | p :: ps => String c p :: ps
           | [] => [String c EmptyString]
           end
  end.

(** [count] copies of a list of code units, for a count that is not
    negative. *)
Fixpoint copies {A} (count : nat) (unit : list A) : list A :=
  match count with
  | O => []
  | S k => (unit ++ copies k unit)%list
  end.

Fixpoint copiesStr (count : nat) (unit : string) : string :=
  match count with
  | O => EmptyString
  | S k => unit ++ copiesStr k unit
  end.

(** [s.padStart(width, fill)] for a filler of one character. *)
Definition padStart (width : nat) (fill : ascii) (s : string) : string :=
  copiesStr (width - String.length s) (String fill EmptyString) ++ s.

(** [s.replace(/c/g, by)] for one character [c]. *)
Fixpoint replaceChar (c : ascii) (by_ : string) (s : string) : string :=
  match s with
  | EmptyString => EmptyString
  | String x s' =>
      if Ascii.eqb x c then by_ ++ replaceChar c by_ s'
      else String x (replaceChar c by_ s')
  end.

(** A string whose code units may exceed 255: the list of its code
    units.  [wide] embeds a [string]. *)
Definition wstring : Type := list N.

Definition wide (s : string) : wstring :=
  map N_of_ascii (list_ascii_of_string s).

End JsExt.

(** Every character of [s] satisfies [p]. *)
Fixpoint allChars (p : ascii -> bool) (s : string) : bool :=
  match s with
  | EmptyString => true
  | String c s' => p c && allChars p s'
  end.

Definition isDigit (c : ascii) : bool :=
  let n := nat_of_ascii c in ((48 <=? n) && (n <=? 57))%nat.

Definition isBar (c : ascii) : bool := Ascii.eqb c "|".
Definition noBar (s : string) : bool := allChars (fun c => negb (isBar c)) s.

(** ** Stars *)

Definition BLACK_STAR : N := 9733.     (* U+2605 *)
Definition WHITE_STAR : N := 9734.     (* U+2606 *)

(** [String.prototype.repeat] throws a [RangeError] on a negative count. *)
Definition repeatUnit (unit : N) (count : Z) : Exn + JsExt.wstring :=
  if count <? 0
  then inl (mkExn "RangeError" ("Invalid count value: " ++ Js.showZ count))
  else inr (JsExt.copies (Z.to_nat count) [unit]).

Definition starsText (n : Z) : Exn + JsExt.wstring :=
  match repeatUnit BLACK_STAR n with
  | inl e => inl e
  | inr filled =>
      match repeatUnit WHITE_STAR (5 - n) with
      | inl e => inl e
      | inr empty => inr (filled ++ empty)%list
      end
  end.

(** ** Time stamp *)

Module Clock.

(** What [nowStamp] reads of [new Date()]: the local year, the month from
    0, the day of the month, hours, minutes and seconds. *)
Record DateParts := mkDateParts {
  getFullYear : Z;
  getMonth : nat;
  getDate : nat;
  getHours : nat;
  getMinutes : nat;
  getSeconds : nat
}.

Definition pad (n : nat) : string :=
  JsExt.padStart 2 "0" (Js.showNat n).

Definition nowStamp (d : DateParts) : string :=
  Js.showZ (getFullYear d) ++ pad (getMonth d + 1) ++ pad (getDate d)
  ++ "-" ++ pad (getHours d) ++ pad (getMinutes d) ++ pad (getSeconds d).

(** The ranges that a [Date] keeps its parts in. *)
Definition inRange (d : DateParts) : Prop :=
  (getMonth d <= 11 /\ 1 <= getDate d <= 31 /\ getHours d <= 23
   /\ getMinutes d <= 59 /\ getSeconds d <= 59)%nat.

End Clock.

(** The name of the report file, as [F_Data] builds it. *)
Definition fileNameOf (whoisDomain stamp : string) : string :=
  "rawdata-" ++ safeFilename whoisDomain ++ "-" ++ stamp ++ ".txt".

(** ** Share (simple copy-paste token) *)

(** [ts] is [new Date().toISOString()]. *)
Definition makeShareToken (ts : string) (url label : string) (stars : Z)
  : string :=
  "SAFE-LINK|" ++ url ++ "|" ++ label ++ "|" ++ Js.showZ stars ++ "|" ++ ts.

(** [Some url] for the object [{ url }], [None] for [null]. *)
Definition parseShareToken (token : string) : option string :=
  let trimmed := Js.trim token in
  if negb (Js.startsWith trimmed "SAFE-LINK|") then None
  else
    let parts := JsExt.split "|" trimmed in
    if (length parts <? 2)%nat then None
    else
      match nth_error parts 1 with
      | Some url => if negb (hasHttpPrefix url) then None else Some url
      | None => None
      end.

(** The part of a string before its first bar. *)
Definition beforeBar (s : string) : string :=
  hd EmptyString (JsExt.split "|" s).

(** ** Open URL in browser (macOS) *)

Definition escapeQuotes (url : string) : string :=
  JsExt.replaceChar JsExt.DQUOTE
                    (String JsExt.BACKSLASH (String JsExt.DQUOTE EmptyString))
                    url.

(** The command line handed to the shell. *)
Definition openCommand (url : string) : string :=
  "open " ++ String JsExt.DQUOTE (escapeQuotes url)
  ++ String JsExt.DQUOTE EmptyString.

(** Double quotes that the shell does not see escaped: inside double
    quotes a backslash takes the next character with it. *)
Fixpoint bareQuotes (s : string) : nat :=
  match s with
  | EmptyString => 0%nat
  | String c s' =>
      if Ascii.eqb c JsExt.BACKSLASH then
        match s' with
        | EmptyString => 0%nat
        | String _ s'' => bareQuotes s''
        end
      else if Ascii.eqb c JsExt.DQUOTE then S (bareQuotes s')
      else bareQuotes s'
  end.

(** ** HTTP request, from the inside

    [httpRequest] with its two fetches, its timer and its clock.  The abort
    that the timer triggers reaches the program as a rejected fetch, so it
    is among the ways [fetch] throws. *)
Module Probe.

Inductive Method := HEAD | GET.

(** What [httpRequest] reads of a [Response]; [res_headers] are the entries
    that [res.headers.forEach] visits, in order. *)
Record Response := mkResponse {
  res_status : Z;
  res_url : string;
  res_headers : list (string * string)
}.

Record Net := mkNet {
  fetch : Method -> string -> Exn + Response;
  Date_now : nat -> Z                 (* the k-th reading of the clock *)
}.

Inductive Event :=
| SetTimeout (ms : Z)
| Fetch (method : Method) (url : string)
| ClearTimeout.

Record State := mkState { reads : nat; events : list Event }.

Definition P (A : Type) : Type := State -> (Exn + A) * State.

Definition ret {A} (a : A) : P A := fun st => (inr a, st).

Definition bind {A B} (m : P A) (k : A -> P B) : P B :=
  fun st =>
    match m st with
    | (inr a, st') => k a st'
    | (inl e, st') => (inl e, st')
    end.

(** [try { body } finally { cleanup }] for a cleanup that does not throw. *)
Definition try_finally {A} (body : P A) (cleanup : P unit) : P A :=
  fun st =>
    match body st with
    | (r, st') => (r, snd (cleanup st'))
    end.

Definition emit (ev : Event) : P unit :=
  fun st => (inr tt, mkState (reads st) (Js.push (events st) ev)).

Definition now (net : Net) : P Z :=
  fun st => (inr (Date_now net (reads st)), mkState (S (reads st)) (events st)).

Definition doFetch (net : Net) (m : Method) (url : string) : P Response :=
  fun st => (fetch net m url, mkState (reads st) (Js.push (events st) (Fetch m url))).

(** [obj[k] = v] on an object given by its entries. *)
Fixpoint objSet (k v : string) (obj : list (string * string))
  : list (string * string) :=
  match obj with
  | [] => [(k, v)]
  | (k', v') :: rest =>
      if String.eqb k' k then (k, v) :: rest else (k', v') :: objSet k v rest
  end.

(** [obj[k]] *)
Fixpoint objGet (k : string) (obj : list (string * string)) : option string :=
  match obj with
  | [] => None
  | (k', v') :: rest => if String.eqb k' k then Some v' else objGet k rest
  end.

Declare Scope probe_scope.
Delimit Scope probe_scope with probe.
Notation "x <- c ;; k" := (bind c (fun x => k))
  (at level 61, c at next level, right associativity) : probe_scope.

Local Open Scope probe_scope.

Definition httpRequest (net : Net) (url : string) : P HttpInfo :=
  start <- now net ;;
  _ <- emit (SetTimeout 10000) ;;
  try_finally
    (res <- doFetch net HEAD url ;;
     res <- (if (res_status res =? 405) || (res_status res =? 403)
             then doFetch net GET url else ret res) ;;
     end_ <- now net ;;
     let headers :=
       fold_left (fun obj kv => objSet (fst kv) (snd kv) obj)
                 (res_headers res) [] in
     ret (mkHttpInfo (res_status res) (end_ - start) (res_url res) headers))
    (emit ClearTimeout).

Local Close Scope probe_scope.

Definition run {A} (m : P A) : (Exn + A) * State := m (mkState 0 []).

Definition isFetch (ev : Event) : bool :=
  match ev with Fetch _ _ => true | _ => false end.

(** The HEAD answer asks for a second try. *)
Definition refused (r : Exn + Response) : bool :=
  match r with
  | inr res => (res_status res =? 405) || (res_status res =? 403)
  | inl _ => false
  end.

End Probe.

(** ** F_UI *)

Module Ui.

(** What the prompt needs of the outside besides the lookups: what the user
    types (the k-th answer), the clock of the share code and the shell. *)
Record Console := mkConsole {
  typed : nat -> string;
  toISOString_now : string;
  exec : string -> Exn + unit
}.

Inductive Event :=
| Print (line : JsExt.wstring)          (* console.log *)
| Question (prompt : string)            (* rl.question *)
| Lookup (c : Call)                     (* a call of F_Data *)
| Exec (command : string)
| Close                                 (* rl.close *)
| PrintError (e : Exn)                  (* console.error *)
| Exit (code : Z).                      (* process.exit *)

Record State := mkState { asked : nat; events : list Event }.

Definition U (A : Type) : Type := State -> (Exn + A) * State.

Definition ret {A} (a : A) : U A := fun st => (inr a, st).

Definition bind {A B} (m : U A) (k : A -> U B) : U B :=
  fun st =>
    match m st with
    | (inr a, st') => k a st'
    | (inl e, st') => (inl e, st')
    end.

Definition lift {A} (r : Exn + A) : U A := fun st => (r, st).

(** [promise.catch(handler)] *)
Definition catch {A} (body : U A) (handler : Exn -> U A) : U A :=
  fun st =>
    match body st with
    | (inr a, st') => (inr a, st')
    | (inl e, st') => handler e st'
    end.

Definition emit (ev : Event) : U unit :=
  fun st => (inr tt, mkState (asked st) (Js.push (events st) ev)).

Definition logWide (line : JsExt.wstring) : U unit := emit (Print line).

Definition log (line : string) : U unit := logWide (JsExt.wide line).

Definition question (con : Console) (prompt : string) : U string :=
  fun st =>
    (inr (typed con (asked st)),
     mkState (S (asked st)) (Js.push (events st) (Question prompt))).

Definition doExec (con : Console) (command : string) : U unit :=
  fun st =>
    (exec con command, mkState (asked st) (Js.push (events st) (Exec command))).

(** A computation of [F_Data], its calls entered in the log. *)
Definition scan {A} (m : M A) : U A :=
  fun st =>
    (outcome m, mkState (asked st) (events st ++ map Lookup (calls m))%list).

Fixpoint forEach {A} (f : A -> U unit) (l : list A) : U unit :=
  match l with
  | [] => ret tt
  | x :: rest => bind (f x) (fun _ => forEach f rest)
  end.

Definition run {A} (m : U A) : (Exn + A) * State := m (mkState 0 []).

Definition isLookup (ev : Event) : bool :=
  match ev with Lookup _ => true | _ => false end.

Definition isExec (ev : Event) : bool :=
  match ev with Exec _ => true | _ => false end.

Definition isPrint (ev : Event) : bool :=
  match ev with Print _ => true | _ => false end.

End Ui.

Declare Scope ui_scope.
Delimit Scope ui_scope with ui.
Notation "x <- c ;; k" := (Ui.bind c (fun x => k))
  (at level 61, c at next level, right associativity) : ui_scope.

Section Prompt.

Variable URL_hostname : string -> option string.
Variable formatRawTxt : RawData -> string.
Variable env : Env.
Variable con : Ui.Console.

Local Open Scope ui_scope.

Definition openInBrowser (url : string) : Ui.U unit :=
  Ui.doExec con (openCommand url).

Definition F_UI : Ui.U unit :=
  _ <- Ui.log (String JsExt.LF "=== SAFE-LINK ===") ;;
  _ <- Ui.log "1) Scan a URL" ;;
  _ <- Ui.log "2) Paste a share code (from a friend)" ;;
  answer <- Ui.question con "Choose (1/2): " ;;
  let mode := Js.trim answer in
  chosen <-
    (if String.eqb mode "2" then
       token <- Ui.question con "Paste share code: " ;;
       match parseShareToken token with
       | None =>
           _ <- Ui.log "Invalid share code." ;;
           _ <- Ui.question con (String JsExt.LF "Press ENTER to close...") ;;
           _ <- Ui.emit Ui.Close ;;
           Ui.ret None
       | Some url =>
           _ <- Ui.log ("Loaded URL: " ++ url) ;;
           Ui.ret (Some url)
       end
     else
       typedUrl <- Ui.question con "Enter website URL: " ;;
       Ui.ret (Some (Js.trim typedUrl))) ;;
  match chosen with
  | None => Ui.ret tt
  | Some urlClick =>
      (* F_DATA *)
      data <- Ui.scan (F_Data URL_hostname formatRawTxt env urlClick) ;;
      _ <- Ui.log (String JsExt.LF "Saved raw data to: " ++ savedFilePath data) ;;
      (* F_VF *)
      let verdict := F_VF URL_hostname data in
      _ <- Ui.log (String JsExt.LF (JsExt.copiesStr 70 "-")) ;;
      starLine <- Ui.lift (starsText (stars verdict)) ;;
      _ <- Ui.logWide
             (JsExt.wide ("VERDICT: " ++ labelText (label verdict) ++ "  ")
              ++ starLine)%list ;;
      _ <- Ui.log "Reasons:" ;;
      _ <- Ui.forEach (fun r => Ui.log ("  - " ++ r)) (reasons verdict) ;;
      _ <- Ui.log (JsExt.copiesStr 70 "-") ;;
      (* Share token *)
      let share :=
        makeShareToken (Ui.toISOString_now con) (targetUrl data)
                       (labelText (label verdict)) (stars verdict) in
      _ <- Ui.log (String JsExt.LF "SHARE THIS (copy/paste to friend):") ;;
      _ <- Ui.log share ;;
      (* Go / No *)
      answer <- Ui.question con
                  (String JsExt.LF "Go to this website? (y/n): ") ;;
      let ans := Js.toLowerCase (Js.trim answer) in
      _ <- (if String.eqb ans "y" || String.eqb ans "yes" then
              _ <- Ui.log "Opening in browser..." ;;
              openInBrowser (targetUrl data)
            else Ui.log "Canceled.") ;;
      _ <- Ui.question con (String JsExt.LF "Press ENTER to close...") ;;
      Ui.emit Ui.Close
  end.

(* RUN *)
Definition RUN : Ui.U unit :=
  Ui.catch F_UI
           (fun err => _ <- Ui.emit (Ui.PrintError err) ;; Ui.emit (Ui.Exit 1)).

Local Close Scope ui_scope.

End Prompt.

(** ** Closed forms for the probe and the prompt *)

(** The value of the last entry named [k]. *)
Fixpoint lastValue (k : string) (entries : list (string * string))
  : option string :=
  match entries with
  | [] => None
  | (k', v) :: rest =>
      match lastValue k rest with
      | Some x => Some x
      | None => if String.eqb k' k then Some v else None
      end
  end.

(** The outcome of the last fetch that [httpRequest] issues: the GET when
    the HEAD was refused, the HEAD otherwise. *)
Definition lastFetch (net : Probe.Net) (url : string) : Exn + Probe.Response :=
  if Probe.refused (Probe.fetch net Probe.HEAD url)
  then Probe.fetch net Probe.GET url
  else Probe.fetch net Probe.HEAD url.

(** The URL that the prompt settles on: the one of the share code in mode
    2 (none for a code that does not parse), the one typed otherwise. *)
Definition chosenUrl (con : Ui.Console) : option string :=
  if String.eqb (Js.trim (Ui.typed con 0)) "2"
  then parseShareToken (Ui.typed con 1)
  else Some (Js.trim (Ui.typed con 1)).

(** The third answer says yes. *)
Definition confirmed (con : Ui.Console) : bool :=
  let ans := Js.toLowerCase (Js.trim (Ui.typed con 2)) in
  String.eqb ans "y" || String.eqb ans "yes".

Definition pressEnter : string :=
  String JsExt.LF "Press ENTER to close...".

(** What is on the terminal before the scan. *)
Definition opening (con : Ui.Console) : list Ui.Event :=
  [Ui.Print (JsExt.wide (String JsExt.LF "=== SAFE-LINK ==="));
   Ui.Print (JsExt.wide "1) Scan a URL");
   Ui.Print (JsExt.wide "2) Paste a share code (from a friend)");
   Ui.Question "Choose (1/2): "]
  ++ (if String.eqb (Js.trim (Ui.typed con 0)) "2" then
        Ui.Question "Paste share code: "
        :: match parseShareToken (Ui.typed con 1) with
           | Some url => [Ui.Print (JsExt.wide ("Loaded URL: " ++ url))]
           | None =>
               [Ui.Print (JsExt.wide "Invalid share code.");
                Ui.Question pressEnter; Ui.Close]
           end
      else [Ui.Question "Enter website URL: "])%list.

(** The share code that the prompt prints for a verdict. *)
Definition shareOf (con : Ui.Console) (data : RawData) (v : Verdict) : string :=
  makeShareToken (Ui.toISOString_now con) (targetUrl data)
                 (labelText (label v)) (stars v).

(** What the prompt prints between the scan and its last question. *)
Definition verdictLines (con : Ui.Console) (data : RawData) (v : Verdict)
  : list Ui.Event :=
  ([Ui.Print (JsExt.wide (String JsExt.LF "Saved raw data to: "
                          ++ savedFilePath data));
    Ui.Print (JsExt.wide (String JsExt.LF (JsExt.copiesStr 70 "-")));
    Ui.Print (JsExt.wide ("VERDICT: " ++ labelText (label v) ++ "  ")
              ++ JsExt.copies (Z.to_nat (stars v)) [BLACK_STAR]
              ++ JsExt.copies (Z.to_nat (5 - stars v)) [WHITE_STAR]);
    Ui.Print (JsExt.wide "Reasons:")]
   ++ map (fun r => Ui.Print (JsExt.wide ("  - " ++ r))) (reasons v)
   ++ [Ui.Print (JsExt.wide (JsExt.copiesStr 70 "-"));
       Ui.Print (JsExt.wide
                   (String JsExt.LF "SHARE THIS (copy/paste to friend):"));
       Ui.Print (JsExt.wide (shareOf con data v));
       Ui.Question (String JsExt.LF "Go to this website? (y/n): ")])%list.

(** Sessions at the prompt: what the user types, a clock, a shell that
    succeeds or fails. *)
Module Session.

Definition console (answers : list string) (shell : Exn + unit) : Ui.Console :=
  Ui.mkConsole (fun k => nth k answers EmptyString)
               "2026-01-01T12:00:00.000Z" (fun _ => shell).

End Session.

(** ** analyzer.js: the placeholder analyzer of the extension *)

Module Analyzer.

Definition clamp (n min max : Z) : Z := Z.max min (Z.min max n).

Definition scoreToColor (score : Z) : string :=
  if score <? 20 then "Black"
  else if score <? 40 then "Red"
  else if score <? 60 then "Orange"
  else if score <? 80 then "Yellow"
  else "Green".

(** What [analyzeUrl] reads of [new URL(url)]. *)
Record UrlParts := mkUrlParts { protocol : string; hostname : string }.

(** What it reads of a [Response]; [contentType] is
    [res.headers.get("content-type")], [None] for [null]. *)
Record Response := mkResponse {
  res_status : Z;
  res_url : string;
  contentType : option string
}.

Inductive Method := HEAD | GET.

(** The browser: the URL parser ([None] when the constructor throws),
    [fetch], and the rounded time between the two readings of
    [performance.now()]. *)
Record Browser := mkBrowser {
  parseUrl : string -> option UrlParts;
  fetch : Method -> string -> Exn + Response;
  elapsedMs : Z
}.

Record Http := mkHttp { status : Z; timeMs : Z; finalUrl : string }.

(** [stats] is always [null]. *)
Record Result := mkResult {
  url : string;
  score : Z;
  color : string;
  reasons : list string;
  http : option Http;
  stats : option unit
}.

(** [s.includes(needle)] *)
Fixpoint includes (s needle : string) : bool :=
  String.prefix needle s
  || match s with
     | EmptyString => false
     | String _ s' => includes s' needle
     end.

(** [host.split(".").pop()] *)
Definition tldOf (host : string) : string :=
  last (JsExt.split "." host) EmptyString.

Definition suspiciousTlds : list string := ["zip"; "mov"; "top"; "xyz"; "click"].

Definition isSuspicious (tld : string) : bool :=
  existsb (String.eqb tld) suspiciousTlds.

(** The two requests of the timing signal: the answer of the GET when the
    HEAD was answered with 405 or 403, of the HEAD otherwise. *)
Definition probe (b : Browser) (target : string) : Exn + Response :=
  match fetch b HEAD target with
  | inl e => inl e
  | inr res =>
      if (res_status res =? 405) || (res_status res =? 403)
      then fetch b GET target
      else inr res
  end.

Definition isHtml (res : Response) : bool :=
  let ct := Js.toLowerCase (match contentType res with
                            | Some v => if Js.truthy v then v else EmptyString
                            | None => EmptyString
                            end) in
  includes ct "text/html".

Definition analyzeUrl (b : Browser) (target : string) : Result :=
  let score := 50 in
  let reasons : list string := [] in
  match parseUrl b target with
  | None => mkResult target 0 "Black" ["Invalid URL"] None None
  | Some u =>
      let https := String.eqb (protocol u) "https:" in
      let score := score + (if https then 15 else -15) in
      let reasons := Js.push reasons (if https then "Uses HTTPS" else "Not HTTPS") in
      (* quick domain heuristics *)
      let host := Js.toLowerCase (hostname u) in
      let tld := tldOf host in
      let '(score, reasons) :=
        if isSuspicious tld
        then (score - 12, Js.push reasons ("Suspicious TLD (." ++ tld ++ ")"))
        else (score, reasons) in
      (* timing signal *)
      let '(score, reasons, http) :=
        match probe b target with
        | inr res =>
            let timeMs := elapsedMs b in
            let http := Some (mkHttp (res_status res) timeMs (res_url res)) in
            let score :=
              if (200 <=? res_status res) && (res_status res <? 400)
              then score + 10 else score - 10 in
            let score := if timeMs <? 800 then score + 5 else score in
            let score := if 3000 <? timeMs then score - 5 else score in
            if negb (isHtml res)
            then (score - 5, Js.push reasons "Not HTML content", http)
            else (score, reasons, http)
        | inl _ =>
            (score - 8, Js.push reasons "Fetch blocked/failed (common)", None)
        end in
      let score := clamp score 0 100 in
      mkResult target score (scoreToColor score) reasons http None
  end.

(** Every signal of [analyzeUrl] is good: https, a TLD that is not
    suspicious, an answer with a status from 200 to 399 in less than 800
    ms, and HTML content. *)
Definition allGood (b : Browser) (target : string) : bool :=
  match parseUrl b target with
  | None => false
  | Some u =>
      String.eqb (protocol u) "https:"
      && negb (isSuspicious (tldOf (Js.toLowerCase (hostname u))))
      && match probe b target with
         | inr res =>
             (200 <=? res_status res) && (res_status res <? 400)
             && (elapsedMs b <? 800) && isHtml res
         | inl _ => false
         end
  end.

End Analyzer.

(* ===================================================================== *)
(** * Properties of the verdict scorer                                    *)
(* ===================================================================== *)

Section Scorer.

Variable URL_hostname : string -> option string.

Local Abbreviation checkRedirect := (checkRedirect URL_hostname).
Local Abbreviation F_VF_locals := (F_VF_locals URL_hostname).
Local Abbreviation F_VF_score := (F_VF_score URL_hostname).
Local Abbreviation F_VF_reasons := (F_VF_reasons URL_hostname).
Local Abbreviation F_VF := (F_VF URL_hostname).
Local Abbreviation worsens := (worsens URL_hostname).

Ltac additive_tac :=
  intros d [sc rs]; unfold penaltyOf, reasonsOf, penalize, remark, Js.push;
  cbn [fst snd];
  repeat match goal with
         | |- context [match ?x with _ => _ end] => destruct x
         end;
  cbn [fst snd app]; rewrite ?Z.add_0_r, ?app_nil_r; reflexivity.

Lemma checkHttps_additive : additive checkHttps.
Proof. unfold checkHttps. additive_tac. Qed.

Lemma checkStatus_additive : additive checkStatus.
Proof. unfold checkStatus. additive_tac. Qed.

Lemma checkRedirect_additive : additive checkRedirect.
Proof. unfold checkRedirect. additive_tac. Qed.

Lemma checkTls_additive : additive checkTls.
Proof. unfold checkTls. additive_tac. Qed.

Lemma checkWhois_additive : additive checkWhois.
Proof. unfold checkWhois. additive_tac. Qed.

Lemma checkErrors_additive : additive checkErrors.
Proof. unfold checkErrors. additive_tac. Qed.

(** The locals at the end of the six checks: the penalties summed, the
    reasons concatenated, both in the order of the checks. *)
Lemma F_VF_locals_split d :
  F_VF_locals d
  = (penaltyOf checkHttps d + penaltyOf checkStatus d
     + penaltyOf checkRedirect d + penaltyOf checkTls d
     + penaltyOf checkWhois d + penaltyOf checkErrors d,
     (reasonsOf checkHttps d ++ reasonsOf checkStatus d
      ++ reasonsOf checkRedirect d ++ reasonsOf checkTls d
      ++ reasonsOf checkWhois d ++ reasonsOf checkErrors d)%list).
Proof.
  unfold F_VF_locals.
  rewrite checkErrors_additive, checkWhois_additive, checkTls_additive,
    checkRedirect_additive, checkStatus_additive, checkHttps_additive.
  cbn [fst snd app]. rewrite <- !app_assoc. reflexivity.
Qed.

(** ** The six penalties and the reasons that go with them *)

Lemma penalty_https d :
  penaltyOf checkHttps d = if isHttps d then 0 else 3.
Proof. unfold penaltyOf, checkHttps. destruct (isHttps d); reflexivity. Qed.

Lemma penalty_status d :
  penaltyOf checkStatus d
  = match http d with
    | Some h => if 400 <=? status h then 2 else 0
    | None => 2
    end.
Proof.
  unfold penaltyOf, checkStatus. destruct (http d) as [h|]; [|reflexivity].
  destruct (400 <=? status h); reflexivity.
Qed.

Lemma penalty_redirect_range d :
  penaltyOf checkRedirect d = 0 \/ penaltyOf checkRedirect d = 1
  \/ penaltyOf checkRedirect d = 2.
Proof.
  unfold penaltyOf, checkRedirect.
  destruct (http d) as [h|]; [|now left].
  destruct (Js.truthy (finalUrl h)); [|now left].
  destruct (getHost URL_hostname (finalUrl h)) as [e|fh]; [now right; left|].
  destruct (negb _); [now right; right | now left].
Qed.

Lemma penalty_redirect_absent d :
  http d = None -> penaltyOf checkRedirect d = 0.
Proof. unfold penaltyOf, checkRedirect. now intros ->. Qed.

Lemma penalty_tls d :
  penaltyOf checkTls d = match tls d with None => 3 | Some _ => 0 end.
Proof. unfold penaltyOf, checkTls. destruct (tls d); reflexivity. Qed.

Lemma penalty_whois d :
  penaltyOf checkWhois d = match whois d with None => 1 | Some _ => 0 end.
Proof. unfold penaltyOf, checkWhois. destruct (whois d); reflexivity. Qed.

Lemma penalty_errors d :
  penaltyOf checkErrors d = match errors d with [] => 0 | _ => 1 end.
Proof. unfold penaltyOf, checkErrors. destruct (errors d); reflexivity. Qed.

Lemma reasons_https_one d : length (reasonsOf checkHttps d) = 1%nat.
Proof. unfold reasonsOf, checkHttps. destruct (isHttps d); reflexivity. Qed.

Lemma reasons_status_one d : length (reasonsOf checkStatus d) = 1%nat.
Proof.
  unfold reasonsOf, checkStatus. destruct (http d) as [h|]; [|reflexivity].
  destruct (400 <=? status h); reflexivity.
Qed.

Lemma reasons_tls_one d : length (reasonsOf checkTls d) = 1%nat.
Proof. unfold reasonsOf, checkTls. destruct (tls d); reflexivity. Qed.

Lemma reasons_whois_one d : length (reasonsOf checkWhois d) = 1%nat.
Proof. unfold reasonsOf, checkWhois. destruct (whois d); reflexivity. Qed.

(** The redirect check and the error check say something only when they
    penalise. *)
Lemma reasons_redirect_when_penalised d :
  length (reasonsOf checkRedirect d)
  = if 0 <? penaltyOf checkRedirect d then 1%nat else 0%nat.
Proof.
  unfold reasonsOf, penaltyOf, checkRedirect.
  destruct (http d) as [h|]; [|reflexivity].
  destruct (Js.truthy (finalUrl h)); [|reflexivity].
  destruct (getHost URL_hostname (finalUrl h)) as [e|fh]; [reflexivity|].
  destruct (negb _); reflexivity.
Qed.

Lemma reasons_errors_when_penalised d :
  length (reasonsOf checkErrors d)
  = if 0 <? penaltyOf checkErrors d then 1%nat else 0%nat.
Proof. unfold reasonsOf, penaltyOf, checkErrors. destruct (errors d); reflexivity. Qed.

Lemma F_VF_score_split d :
  F_VF_score d
  = penaltyOf checkHttps d + penaltyOf checkStatus d
    + penaltyOf checkRedirect d + penaltyOf checkTls d
    + penaltyOf checkWhois d + penaltyOf checkErrors d.
Proof. unfold F_VF_score. now rewrite F_VF_locals_split. Qed.

Lemma F_VF_reasons_split d :
  F_VF_reasons d
  = (reasonsOf checkHttps d ++ reasonsOf checkStatus d
     ++ reasonsOf checkRedirect d ++ reasonsOf checkTls d
     ++ reasonsOf checkWhois d ++ reasonsOf checkErrors d)%list.
Proof. unfold F_VF_reasons. now rewrite F_VF_locals_split. Qed.

Lemma F_VF_score_nonneg d : 0 <= F_VF_score d.
Proof.
  rewrite F_VF_score_split, penalty_https, penalty_status, penalty_tls,
    penalty_whois, penalty_errors.
  pose proof (penalty_redirect_range d).
  destruct (isHttps d), (http d) as [h|], (tls d), (whois d), (errors d);
    try destruct (400 <=? status h); lia.
Qed.

Lemma F_VF_reasons_length d :
  (4 <= length (F_VF_reasons d) <= 6)%nat.
Proof.
  rewrite F_VF_reasons_split, !length_app, reasons_https_one,
    reasons_status_one, reasons_tls_one, reasons_whois_one,
    reasons_redirect_when_penalised, reasons_errors_when_penalised.
  destruct (0 <? _), (0 <? _); lia.
Qed.

(** The record that [F_VF] returns, in terms of its locals. *)
Lemma F_VF_unfold d :
  F_VF d = mkVerdict (fst (grade (F_VF_score d))) (snd (grade (F_VF_score d)))
                     (firstn 8 (F_VF_reasons d)).
Proof.
  unfold F_VF, F_VF_score, F_VF_reasons.
  destruct (F_VF_locals d) as [sc rs]. cbn [fst snd].
  destruct (grade sc); reflexivity.
Qed.

Lemma F_VF_reasons_untruncated d : reasons (F_VF d) = F_VF_reasons d.
Proof.
  rewrite F_VF_unfold. cbn [reasons]. apply firstn_all2.
  pose proof (F_VF_reasons_length d). lia.
Qed.

Lemma grade_row s : 0 <= s -> threshold_row s (fst (grade s)) (snd (grade s)).
Proof.
  intros Hs. unfold grade.
  destruct (s <=? 1) eqn:H1; [apply row_0_1; lia|].
  destruct (s <=? 3) eqn:H3; [apply row_2_3; lia|].
  destruct (s <=? 5) eqn:H5; [apply row_4_5; lia|].
  destruct (s <=? 7) eqn:H7; [apply row_6_7; lia|].
  apply row_8_up; lia.
Qed.

Lemma F_VF_row d :
  threshold_row (F_VF_score d) (stars (F_VF d)) (label (F_VF d)).
Proof.
  rewrite F_VF_unfold. cbn [stars label].
  apply grade_row, F_VF_score_nonneg.
Qed.

End Scorer.

Section VerdictClaims.

Variable URL_hostname : string -> option string.

Local Abbreviation checkRedirect := (checkRedirect URL_hostname).
Local Abbreviation F_VF_score := (F_VF_score URL_hostname).
Local Abbreviation F_VF_reasons := (F_VF_reasons URL_hostname).
Local Abbreviation F_VF := (F_VF URL_hostname).
Local Abbreviation worsens := (worsens URL_hostname).

(** C1.  For every [RawData], the stars and the label of the verdict are
    those of the row of the threshold table in which the accumulated
    score lies: 0-1 gives 5 and SAFE, 2-3 gives 4 and SAFE, 4-5 gives 3
    and CAUTION, 6-7 gives 2 and RISKY, 8 or more gives 1 and RISKY. *)
Theorem F_VF_threshold_table (d : RawData) :
  threshold_row (F_VF_score d) (stars (F_VF d)) (label (F_VF d)).
Proof.
  rewrite F_VF_unfold. cbn [stars label].
  apply grade_row.
  apply F_VF_score_nonneg.
Qed.

(** C4 (amended).  A verdict carries stars between 1 and 5, one of the
    three labels and at most 8 reasons; these three are its only
    properties.  The accumulated score is a non-negative integer that
    stays local to [F_VF]: the verdict has no [score] property and none
    of its properties holds the score. *)
Theorem F_VF_verdict_fields (d : RawData) :
  1 <= stars (F_VF d) <= 5
  /\ In (label (F_VF d)) [SAFE; CAUTION; RISKY]
  /\ (length (reasons (F_VF d)) <= 8)%nat
  /\ 0 <= F_VF_score d
  /\ Verdict_get (F_VF d) "score" = None
  /\ forall key,
       Verdict_get (F_VF d) key = None
       \/ (In key ["stars"; "label"; "reasons"]
           /\ Verdict_get (F_VF d) key <> Some (JNum (F_VF_score d))).
Proof.
  pose proof (F_VF_row URL_hostname d) as Hrow.
  pose proof (F_VF_score_nonneg URL_hostname d) as Hs.
  repeat split.
  - inversion Hrow; lia.
  - inversion Hrow; lia.
  - destruct (label (F_VF d)); cbn; auto.
  - rewrite F_VF_reasons_untruncated.
    pose proof (F_VF_reasons_length URL_hostname d). lia.
  - exact Hs.
  - intros key. unfold Verdict_get.
    destruct (String.eqb_spec key "stars") as [->|_].
    { right. split; [cbn; auto|]. intros [= E]. inversion Hrow; lia. }
    destruct (String.eqb_spec key "label") as [->|_].
    { right. split; [cbn; auto|]. discriminate. }
    destruct (String.eqb_spec key "reasons") as [->|_].
    { right. split; [cbn; auto|]. discriminate. }
    now left.
Qed.

(** C5 (amended).  The six checks contribute in the fixed order https,
    status, redirect, TLS, WHOIS, errors: the score is the sum of their
    penalties and the reasons are their reasons concatenated in that
    order.  The https, status, TLS and WHOIS checks push exactly one
    reason each, penalty or not; the redirect check and the errors check
    push one reason when they penalise and none otherwise. *)
Theorem F_VF_reasons_in_order (d : RawData) :
  reasons (F_VF d)
  = (reasonsOf checkHttps d ++ reasonsOf checkStatus d
     ++ reasonsOf checkRedirect d ++ reasonsOf checkTls d
     ++ reasonsOf checkWhois d ++ reasonsOf checkErrors d)%list
  /\ F_VF_score d
     = penaltyOf checkHttps d + penaltyOf checkStatus d
       + penaltyOf checkRedirect d + penaltyOf checkTls d
       + penaltyOf checkWhois d + penaltyOf checkErrors d
  /\ length (reasonsOf checkHttps d) = 1%nat
  /\ length (reasonsOf checkStatus d) = 1%nat
  /\ length (reasonsOf checkRedirect d)
     = (if 0 <? penaltyOf checkRedirect d then 1%nat else 0%nat)
  /\ length (reasonsOf checkTls d) = 1%nat
  /\ length (reasonsOf checkWhois d) = 1%nat
  /\ length (reasonsOf checkErrors d)
     = (if 0 <? penaltyOf checkErrors d then 1%nat else 0%nat).
Proof.
  rewrite F_VF_reasons_untruncated.
  split; [apply F_VF_reasons_split|].
  split; [apply F_VF_score_split|].
  repeat split.
  - apply reasons_https_one.
  - apply reasons_status_one.
  - apply reasons_redirect_when_penalised.
  - apply reasons_tls_one.
  - apply reasons_whois_one.
  - apply reasons_errors_when_penalised.
Qed.

(** C10.  The reasons that [F_VF] collects number at least 4 and at most
    6, so taking the first 8 of them removes nothing: the verdict holds
    all of them. *)
Theorem F_VF_reasons_never_truncated (d : RawData) :
  (4 <= length (F_VF_reasons d) <= 6)%nat
  /\ reasons (F_VF d) = F_VF_reasons d
  /\ (4 <= length (reasons (F_VF d)) <= 6)%nat.
Proof.
  pose proof (F_VF_reasons_length URL_hostname d) as H.
  rewrite F_VF_reasons_untruncated. auto.
Qed.

(** The checks read their argument through [view] only. *)
Lemma checks_read_view d1 d2 :
  view d1 = view d2 ->
  forall st,
    checkHttps d1 st = checkHttps d2 st
    /\ checkStatus d1 st = checkStatus d2 st
    /\ checkRedirect d1 st = checkRedirect d2 st
    /\ checkTls d1 st = checkTls d2 st
    /\ checkWhois d1 st = checkWhois d2 st
    /\ checkErrors d1 st = checkErrors d2 st.
Proof.
  unfold view. intros [= Hs Hh Hhost Ht Hw He] st.
  unfold checkHttps, checkStatus, checkRedirect, checkTls,
    checkWhois, checkErrors.
  rewrite Hs, Hhost, He.
  destruct (http d1) as [h1|], (http d2) as [h2|]; try discriminate;
    [injection Hh as -> ->|];
    destruct (tls d1), (tls d2); try discriminate;
    destruct (whois d1), (whois d2); try discriminate;
    destruct (errors d1), (errors d2); try discriminate;
    repeat split; reflexivity.
Qed.

(** C8.  [F_VF] is a function of what it reads of its argument: the
    scheme test on [targetUrl], the status and final URL of [http], the
    [host], the presence of [tls] and of [whois], and the number of
    errors.  Two arguments that agree on these, and so in particular two
    calls on the same argument, get the same verdict: same stars, same
    label, same reasons. *)
Theorem F_VF_deterministic (d1 d2 : RawData) :
  view d1 = view d2 ->
  F_VF d1 = F_VF d2
  /\ stars (F_VF d1) = stars (F_VF d2)
  /\ label (F_VF d1) = label (F_VF d2)
  /\ reasons (F_VF d1) = reasons (F_VF d2).
Proof.
  intros Hv.
  assert (E : F_VF d1 = F_VF d2).
  { unfold F_VF, F_VF_locals.
    pose proof (checks_read_view d1 d2 Hv) as H.
    destruct (H (0, [])) as (-> & _).
    destruct (H (checkHttps d2 (0, []))) as (_ & -> & _).
    destruct (H (checkStatus d2 (checkHttps d2 (0, [])))) as (_ & _ & -> & _).
    match goal with
    | |- context [checkTls d1 ?st] =>
        destruct (H st) as (_ & _ & _ & -> & _)
    end.
    match goal with
    | |- context [checkWhois d1 ?st] =>
        destruct (H st) as (_ & _ & _ & _ & -> & _)
    end.
    match goal with
    | |- context [checkErrors d1 ?st] =>
        destruct (H st) as (_ & _ & _ & _ & _ & ->)
    end.
    reflexivity. }
  rewrite E. auto.
Qed.

(** The redirect check looks at the final URL and at [host] only. *)
Lemma penalty_redirect_reads d d' :
  option_map finalUrl (http d') = option_map finalUrl (http d) ->
  host d' = host d ->
  penaltyOf checkRedirect d' = penaltyOf checkRedirect d.
Proof.
  unfold penaltyOf, checkRedirect. intros Hf ->.
  destruct (http d') as [h'|], (http d) as [h|]; try discriminate;
    [injection Hf as ->|]; reflexivity.
Qed.

Ltac score_tac :=
  rewrite !(F_VF_score_split URL_hostname), !penalty_https, !penalty_status,
    !penalty_tls, !penalty_whois, !penalty_errors;
  unfold isHttps;
  cbn [set_targetUrl set_host set_http set_tls set_whois set_errors
       set_status set_finalUrl targetUrl host http tls whois errors status].


End VerdictClaims.

(* ===================================================================== *)
(** * Properties of the evidence aggregator                               *)
(* ===================================================================== *)

Section Aggregator.

Variable URL_hostname : string -> option string.
Variable formatRawTxt : RawData -> string.

Local Abbreviation F_Data := (F_Data URL_hostname formatRawTxt).

(** Case analysis on what a run of [F_Data] asks the outside. *)
Ltac unfold_run :=
  unfold run, F_Data, bind, try_catch, lift, ret, throw,
    httpRequest, getTlsCert, ipGeoFallback, ipInfoLookup, call, getHost.

Ltac ask x := destruct x eqn:?; cbn -[String.append].

(** The run of [F_Data] in closed form: it throws on a target that does
    not parse before any lookup; otherwise it issues the lookups, then
    resolves the output directory, creates it and writes the report, and
    returns the [evidence] unless one of these three steps throws. *)
Lemma F_Data_run (env : Env) (raw : string) :
  run (F_Data env raw)
  = match URL_hostname (normalizeUrl raw) with
    | None => (inl InvalidURL, [])
    | Some host =>
        let targetUrl := normalizeUrl raw in
        let asked := lookups env targetUrl host in
        match process_cwd env with
        | inl e => (inl e, asked)
        | inr cwd =>
            let dir := outDirOf env cwd in
            let path := reportPath env cwd host in
            let txt := formatRawTxt (evidence env targetUrl host "") in
            match fs_mkdir env dir with
            | inl e => (inl e, (asked ++ [Call_mkdir dir])%list)
            | inr _ =>
                (match fs_writeFile env path txt with
                 | inl e => inl e
                 | inr _ => inr (evidence env targetUrl host path)
                 end,
                 (asked ++ [Call_mkdir dir; Call_writeFile path txt])%list)
            end
        end
    end.
Proof.
  unfold_run.
  destruct (URL_hostname (normalizeUrl raw)) as [h|]; [|reflexivity].
  unfold evidence, lookups, reportPath, outDirOf, resolved, geoAttempts,
    geoField, geoErrors, geoProviders, tlsInfoOf.
  cbn -[String.append].
  ask (dns_lookup env h).
  2: destruct l as [|r rs]; cbn -[String.append].
  3: ask (Js.truthy (IPINFO_TOKEN env)).
  3: ask (ipinfo_io env (address r)).
  all: try ask (ipwho_is env (address r)).
  all: ask (http_exchange env (normalizeUrl raw)).
  all: ask (tls_connect env h).
  all: ask (whois_query env (stripWww h)).
  all: ask (process_cwd env); try reflexivity.
  all: match goal with
       | |- context [fs_mkdir ?e ?dir] => ask (fs_mkdir e dir)
       end; try reflexivity.
  all: match goal with
       | |- context [fs_writeFile ?e ?p ?t] => destruct (fs_writeFile e p t)
       end; reflexivity.
Qed.

(** What a successful run returns, and what it needed. *)
Lemma F_Data_returns (env : Env) (raw : string) (d : RawData) :
  outcome (F_Data env raw) = inr d ->
  exists h cwd,
    URL_hostname (normalizeUrl raw) = Some h
    /\ d = evidence env (normalizeUrl raw) h (reportPath env cwd h).
Proof.
  unfold outcome. rewrite F_Data_run.
  destruct (URL_hostname (normalizeUrl raw)) as [h|]; [|discriminate].
  cbn zeta. destruct (process_cwd env) as [|cwd]; [discriminate|].
  destruct (fs_mkdir env _); [discriminate|].
  cbn [fst]. destruct (fs_writeFile env _ _); [discriminate|].
  intros [= <-]. now exists h, cwd.
Qed.

Lemma errorOf_length {A} prefix (answer : Exn + A) :
  length (errorOf prefix answer) = count (failed answer).
Proof. now destruct answer. Qed.

Lemma fieldOf_absent {A} (answer : Exn + A) :
  absent (fieldOf answer) = count (failed answer).
Proof. now destruct answer. Qed.

Lemma errorOf_In {A} prefix (answer : Exn + A) e :
  answer = inl e -> In (prefix ++ message e) (errorOf prefix answer).
Proof. intros ->. now left. Qed.

(** The geolocation step: one entry for an absent [geo], one more when
    the credentialed provider was asked and failed. *)
Lemma geoErrors_length (env : Env) (ips : list string) :
  length (geoErrors env ips)
  = (absent (geoField env ips) + count (primaryFailed env ips))%nat.
Proof.
  unfold geoErrors, geoField, primaryFailed, geoProviders.
  destruct ips as [|ip rest]; [reflexivity|].
  destruct (Js.truthy (IPINFO_TOKEN env)); cbn -[String.append];
    destruct (ipinfo_io env ip), (ipwho_is env ip); reflexivity.
Qed.

Lemma evidence_errors_length (env : Env) (t h p : string) :
  length (errors (evidence env t h p))
  = (absentOptionalFields (evidence env t h p)
     + count (failed (dns_lookup env h))
     + count (primaryFailed env (resolved env h)))%nat.
Proof.
  unfold absentOptionalFields, evidence.
  cbn [errors geo http tls whois].
  rewrite !length_app, !errorOf_length, geoErrors_length.
  destruct (tls_connect env h); cbn [fieldOf option_map absent failed count];
    rewrite !fieldOf_absent; lia.
Qed.

(** C2 (amended).  In the evidence that [F_Data] returns, [errors] has
    one entry for each absent field among [geo], [http], [tls] and
    [whois], one more entry when the DNS lookup threw (it is then
    reported both as an IP error and as no address resolved), and one
    more when the credentialed geolocation provider was asked and
    failed, whether or not the fallback then answered. *)
Theorem F_Data_errors_length (env : Env) (raw : string) (d : RawData) :
  outcome (F_Data env raw) = inr d ->
  length (errors d)
  = (absentOptionalFields d
     + count (failed (dns_lookup env (host d)))
     + count (primaryFailed env (ips d)))%nat.
Proof.
  intros H. destruct (F_Data_returns env raw d H) as (h & cwd & _ & ->).
  apply evidence_errors_length.
Qed.

Ltac member :=
  rewrite ?in_app_iff; cbn -[String.append];
  auto 12 using errorOf_In.

Lemma evidence_recorded (env : Env) (t h p : string) :
  let d := evidence env t h p in
  recorded (dns_lookup env h) "IP ERROR: " (geo d) (errors d)
  /\ (failed (dns_lookup env h) = true -> ips d = [])
  /\ recorded (http_exchange env t) "HTTP ERROR: " (http d) (errors d)
  /\ recorded (tls_connect env h) "SSL ERROR: " (tls d) (errors d)
  /\ recorded (whois_query env (stripWww h)) "WHOIS ERROR: "
              (whois d) (errors d)
  /\ match ips d with
     | ip :: _ =>
         (if Js.truthy (IPINFO_TOKEN env)
          then match ipinfo_io env ip with
               | inl e =>
                   In ("GEO ERROR (ipinfo): " ++ message e) (errors d)
               | inr _ => True
               end
          else True)
         /\ (if negb (Js.truthy (IPINFO_TOKEN env))
                || failed (ipinfo_io env ip)
             then recorded (ipwho_is env ip) "GEO ERROR (fallback): "
                           (geo d) (errors d)
             else True)
     | [] =>
         geo d = None
         /\ In "No IP addresses resolved from DNS" (errors d)
     end.
Proof.
  cbn zeta. unfold recorded, evidence, resolved.
  cbn [errors geo http tls whois ips].
  repeat split.
  - destruct (dns_lookup env h) as [e|rs] eqn:E; [|exact I].
    split; [reflexivity|]. member.
  - destruct (dns_lookup env h); [reflexivity|discriminate].
  - destruct (http_exchange env t) as [e|x] eqn:E; [|exact I].
    split; [reflexivity|]. member.
  - destruct (tls_connect env h) as [e|x] eqn:E; [|exact I].
    split; [reflexivity|]. member.
  - destruct (whois_query env (stripWww h)) as [e|x] eqn:E; [|exact I].
    split; [reflexivity|]. member.
  - destruct (dns_lookup env h) as [e|rs] eqn:E; cbn -[String.append].
    { split; [reflexivity|]. member. }
    destruct rs as [|r rs]; cbn -[String.append].
    { split; [reflexivity|]. member. }
    unfold geoProviders.
    destruct (Js.truthy (IPINFO_TOKEN env)); cbn -[String.append];
      destruct (ipinfo_io env (address r)) eqn:E1;
      destruct (ipwho_is env (address r)) eqn:E2;
      cbn -[String.append]; repeat split; try exact I; member.
Qed.

(** C3 (amended).  [F_Data] propagates an exception only when the target
    does not parse (the [TypeError] of [getHost]) or when saving the report
    fails: the working directory cannot be read, the output directory
    cannot be created, or the file cannot be written.  With a target that
    parses and a file system that accepts these operations it returns
    evidence whatever the lookups do, and in the evidence it
    returns every failed lookup is recorded: DNS, HTTP, TLS and WHOIS
    failures leave their field absent (no address for DNS) and their
    message in [errors], and so does each geolocation provider that was
    asked and failed. *)
Theorem F_Data_failure_sources (env : Env) (raw : string) :
  (forall e,
      outcome (F_Data env raw) = inl e ->
      (URL_hostname (normalizeUrl raw) = None /\ e = InvalidURL)
      \/ process_cwd env = inl e
      \/ (exists dir, fs_mkdir env dir = inl e)
      \/ (exists path text, fs_writeFile env path text = inl e))
  /\ (forall h cwd,
        URL_hostname (normalizeUrl raw) = Some h ->
        process_cwd env = inr cwd ->
        (forall dir, fs_mkdir env dir = inr tt) ->
        (forall path text, fs_writeFile env path text = inr tt) ->
        exists d, outcome (F_Data env raw) = inr d)
  /\ (forall d,
        outcome (F_Data env raw) = inr d ->
        recorded (dns_lookup env (host d)) "IP ERROR: " (geo d) (errors d)
        /\ (failed (dns_lookup env (host d)) = true -> ips d = [])
        /\ recorded (http_exchange env (targetUrl d)) "HTTP ERROR: "
                    (http d) (errors d)
        /\ recorded (tls_connect env (host d)) "SSL ERROR: "
                    (tls d) (errors d)
        /\ recorded (whois_query env (whoisDomain d)) "WHOIS ERROR: "
                    (whois d) (errors d)
        /\ match ips d with
           | ip :: _ =>
               (if Js.truthy (IPINFO_TOKEN env)
                then match ipinfo_io env ip with
                     | inl e =>
                         In ("GEO ERROR (ipinfo): " ++ message e) (errors d)
                     | inr _ => True
                     end
                else True)
               /\ (if negb (Js.truthy (IPINFO_TOKEN env))
                      || failed (ipinfo_io env ip)
                   then recorded (ipwho_is env ip) "GEO ERROR (fallback): "
                                 (geo d) (errors d)
                   else True)
           | [] =>
               geo d = None
               /\ In "No IP addresses resolved from DNS" (errors d)
           end).
Proof.
  split; [|split].
  - intros e. unfold outcome. rewrite F_Data_run.
    destruct (URL_hostname (normalizeUrl raw)) as [h|].
    2: { intros [= <-]. now left. }
    cbn zeta. destruct (process_cwd env) as [e'|cwd] eqn:Ecwd.
    { intros [= <-]. right. now left. }
    destruct (fs_mkdir env _) as [e'|] eqn:Emk.
    { intros [= <-]. right. right. left. eauto. }
    cbn [fst]. destruct (fs_writeFile env _ _) as [e'|] eqn:Ewr;
      [|discriminate].
    intros [= <-]. right. right. right. eauto.
  - intros h cwd Hh Hcwd Hmk Hwr. unfold outcome.
    rewrite F_Data_run, Hh, Hcwd.
    cbn zeta. rewrite Hmk. cbn [fst]. rewrite Hwr. eauto.
  - intros d H. destruct (F_Data_returns env raw d H) as (h & cwd & _ & ->).
    apply (evidence_recorded env (normalizeUrl raw) h (reportPath env cwd h)).
Qed.

Lemma geoCalls_app (t1 t2 : Trace) :
  geoCalls (t1 ++ t2)%list = (geoCalls t1 ++ geoCalls t2)%list.
Proof. apply filter_app. Qed.

Lemma geoCalls_attempts (env : Env) (ips : list string) :
  geoCalls (geoAttempts env ips) = geoAttempts env ips.
Proof.
  unfold geoAttempts, geoProviders. destruct ips as [|ip rest]; [reflexivity|].
  destruct (Js.truthy (IPINFO_TOKEN env)); cbn;
    destruct (ipinfo_io env ip), (ipwho_is env ip); reflexivity.
Qed.

(** The geolocation requests of a run are the attempts of the chain. *)
Lemma F_Data_geoCalls (env : Env) (raw : string) :
  geoCalls (calls (F_Data env raw))
  = match URL_hostname (normalizeUrl raw) with
    | Some h => geoAttempts env (resolved env h)
    | None => []
    end.
Proof.
  unfold calls. rewrite F_Data_run.
  destruct (URL_hostname (normalizeUrl raw)) as [h|]; [|reflexivity].
  cbn zeta. unfold lookups.
  destruct (process_cwd env); [|destruct (fs_mkdir env _)]; cbn [snd];
    rewrite !geoCalls_app, geoCalls_attempts; cbn;
    now rewrite !app_nil_r.
Qed.

(** C6.  On the first resolved address, the credentialed provider
    (ipinfo) is asked first exactly when a credential is configured; the
    provider that needs none (ipwho.is) is asked exactly when the first
    was not asked or failed; nothing else is asked, so there are at most
    two requests and none after a success.  The evidence holds the
    answer of the first provider that succeeded.  [ipInfoLookup] itself
    throws without sending anything when the credential is missing. *)
Theorem geolocation_fallback_policy (env : Env) (raw ip : string) :
  match URL_hostname (normalizeUrl raw) with
  | None => geoCalls (calls (F_Data env raw)) = []
  | Some h =>
      match resolved env h with
      | [] => geoCalls (calls (F_Data env raw)) = []
      | first :: _ =>
          geoCalls (calls (F_Data env raw))
          = (if Js.truthy (IPINFO_TOKEN env)
             then Call_ipinfo_io first
                  :: (if failed (ipinfo_io env first)
                      then [Call_ipwho_is first] else [])
             else [Call_ipwho_is first])
          /\ geoCalls (calls (F_Data env raw))
             = fst (firstSuccess (geoProviders env first))
          /\ match outcome (F_Data env raw) with
             | inr d => geo d = snd (firstSuccess (geoProviders env first))
             | inl _ => True
             end
      end
  end
  /\ (length (geoCalls (calls (F_Data env raw))) <= 2)%nat
  /\ run (ipInfoLookup env ip)
     = if Js.truthy (IPINFO_TOKEN env)
       then (ipinfo_io env ip, [Call_ipinfo_io ip])
       else (inl (mkExn "Error" "Missing IPINFO_TOKEN"), []).
Proof.
  rewrite F_Data_geoCalls.
  split; [|split].
  - destruct (URL_hostname (normalizeUrl raw)) as [h|] eqn:Eh; [|reflexivity].
    destruct (resolved env h) as [|a rest] eqn:Er; [reflexivity|].
    cbn [geoAttempts]. split; [|split; [reflexivity|]].
    + unfold geoProviders.
      destruct (Js.truthy (IPINFO_TOKEN env)); cbn;
        destruct (ipinfo_io env a), (ipwho_is env a); reflexivity.
    + destruct (outcome (F_Data env raw)) as [e|d] eqn:Eo; [exact I|].
      destruct (F_Data_returns env raw d Eo) as (h' & cwd & Eh' & ->).
      rewrite Eh in Eh'. injection Eh' as <-.
      unfold evidence. cbn [geo]. now rewrite Er.
  - destruct (URL_hostname (normalizeUrl raw)) as [h|]; [|cbn; lia].
    unfold geoAttempts, geoProviders.
    destruct (resolved env h) as [|a rest]; [cbn; lia|].
    destruct (Js.truthy (IPINFO_TOKEN env)); cbn;
      destruct (ipinfo_io env a), (ipwho_is env a); cbn; lia.
  - unfold run, ipInfoLookup, call, throw.
    destruct (Js.truthy (IPINFO_TOKEN env)); reflexivity.
Qed.

End Aggregator.

(* ===================================================================== *)
(** * Properties of the target normaliser                                 *)
(* ===================================================================== *)

Lemma trimStart_fixed s :
  match s with
  | EmptyString => true
  | String c _ => negb (Js.isWhiteSpace c)
  end = true ->
  Js.trimStart s = s.
Proof.
  destruct s as [|c s']; [reflexivity|]. cbn.
  now destruct (Js.isWhiteSpace c).
Qed.

Lemma trimEnd_cons c s :
  Js.trimEnd (String c s)
  = match Js.trimEnd s with
    | EmptyString =>
        if Js.isWhiteSpace c then EmptyString else String c EmptyString
    | t => String c t
    end.
Proof. reflexivity. Qed.

Lemma trimEnd_fixed s : lastIsWhiteSpace s = false -> Js.trimEnd s = s.
Proof.
  induction s as [|c s' IH]; [reflexivity|].
  intros H. rewrite trimEnd_cons. destruct s' as [|c' s''].
  - cbn in *. now rewrite H.
  - now rewrite (IH H).
Qed.

Lemma trimEnd_last s : lastIsWhiteSpace (Js.trimEnd s) = false.
Proof.
  induction s as [|c s' IH]; [reflexivity|].
  cbn [Js.trimEnd]. destruct (Js.trimEnd s') as [|c' t'].
  - destruct (Js.isWhiteSpace c) eqn:E; [reflexivity|]. cbn. exact E.
  - exact IH.
Qed.

Lemma trimEnd_head c s :
  Js.isWhiteSpace c = false ->
  exists t, Js.trimEnd (String c s) = String c t.
Proof.
  intros E. cbn [Js.trimEnd]. destruct (Js.trimEnd s) as [|c' t'].
  - rewrite E. now exists EmptyString.
  - now exists (String c' t').
Qed.

Lemma trimStart_head s :
  match Js.trimStart s with
  | EmptyString => True
  | String c _ => Js.isWhiteSpace c = false
  end.
Proof.
  induction s as [|c s' IH]; [exact I|].
  cbn [Js.trimStart]. destruct (Js.isWhiteSpace c) eqn:E; [exact IH|exact E].
Qed.

(** [trim] leaves no white space at either end, and changes nothing when
    there was none. *)
Lemma trim_bare s : bare (Js.trim s) = true.
Proof.
  unfold Js.trim. pose proof (trimStart_head s) as H.
  destruct (Js.trimStart s) as [|c r]; [reflexivity|].
  destruct (trimEnd_head c r H) as (t & E).
  pose proof (trimEnd_last (String c r)) as L. rewrite E in *.
  unfold bare. now rewrite H, L.
Qed.

Lemma trim_fixed s : bare s = true -> Js.trim s = s.
Proof.
  unfold bare, Js.trim. destruct s as [|c s']; [reflexivity|].
  intros H. apply andb_true_iff in H as [H1 H2].
  rewrite trimStart_fixed by exact H1.
  apply trimEnd_fixed. now apply negb_true_iff.
Qed.

(** C7 (amended).  With [s] the input stripped of the white space at its two
    ends: when [s] has no http:// or https:// prefix (in any case) the
    normalised target is "https://" followed by [s], otherwise it is [s].
    So for an input that has no white space at either end the normalised
    target is "https://" followed by the input when the input has no such
    prefix, and the input itself when it has one.  The result always has
    the prefix. *)
Theorem normalizeUrl_trimmed (raw : string) :
  normalizeUrl raw
  = (if hasHttpPrefix (Js.trim raw) then Js.trim raw
     else "https://" ++ Js.trim raw)
  /\ bare (Js.trim raw) = true
  /\ (bare raw = true ->
      normalizeUrl raw = if hasHttpPrefix raw then raw else "https://" ++ raw)
  /\ hasHttpPrefix (normalizeUrl raw) = true.
Proof.
  assert (E : normalizeUrl raw
              = if hasHttpPrefix (Js.trim raw) then Js.trim raw
                else "https://" ++ Js.trim raw).
  { unfold normalizeUrl. now destruct (hasHttpPrefix (Js.trim raw)). }
  repeat split.
  - exact E.
  - apply trim_bare.
  - intros B. rewrite E, (trim_fixed raw B). reflexivity.
  - rewrite E. destruct (hasHttpPrefix (Js.trim raw)) eqn:P; [exact P|].
    reflexivity.
Qed.

(* ===================================================================== *)
(** * The properties on the scenarios                                     *)
(* ===================================================================== *)

(** The scenarios of the specification, run. *)
Example scenario_online :
  outcome (F_Data Scenario.hostname Scenario.report Scenario.online
                  "example.com") = inr Scenario.clean.
Proof. reflexivity. Qed.

Example scenario_A :
  F_VF_score Scenario.hostname Scenario.clean = 0
  /\ stars (F_VF Scenario.hostname Scenario.clean) = 5
  /\ label (F_VF Scenario.hostname Scenario.clean) = SAFE.
Proof. repeat split. Qed.

Example scenario_B :
  F_VF_score Scenario.hostname Scenario.dark = 3 + 2 + 3 + 1 + 1
  /\ stars (F_VF Scenario.hostname Scenario.dark) = 1
  /\ label (F_VF Scenario.hostname Scenario.dark) = RISKY.
Proof. repeat split. Qed.

Example scenario_C :
  F_VF_score Scenario.hostname Scenario.redirected = 2
  /\ reasons (F_VF Scenario.hostname Scenario.redirected)
     = ["Uses HTTPS"; "HTTP status OK: 200";
        "Redirected to different host: www.example.org";
        "TLS certificate present"; "WHOIS data found"].
Proof. repeat split. Qed.

Example scenario_goodToken :
  geoCalls (calls (F_Data Scenario.hostname Scenario.report
                          Scenario.goodToken "example.com"))
  = [Call_ipinfo_io "93.184.216.34"].
Proof. reflexivity. Qed.

Example scenario_badToken :
  geoCalls (calls (F_Data Scenario.hostname Scenario.report
                          Scenario.badToken "example.com"))
  = [Call_ipinfo_io "93.184.216.34"; Call_ipwho_is "93.184.216.34"].
Proof. reflexivity. Qed.

Lemma normalizeUrl_trimmed_witness :
  bare "example.com" = true
  /\ normalizeUrl "example.com" = "https://example.com".
Proof.
  split; [reflexivity|].
  exact (proj1 (proj2 (proj2 (normalizeUrl_trimmed "example.com"))) eq_refl).
Defined.

(** C7, as stated, fails on an input with white space at an end: the input
    has no prefix and yet the result is not "https://" followed by the
    input; the input has a prefix and yet is not returned unchanged. *)
Lemma normalizeUrl_strips_white_space :
  (hasHttpPrefix " example.com" = false
   /\ normalizeUrl " example.com" = "https://example.com"
   /\ normalizeUrl " example.com" <> "https://" ++ " example.com")
  /\ (hasHttpPrefix "http://example.com " = true
      /\ normalizeUrl "http://example.com " = "http://example.com"
      /\ normalizeUrl "http://example.com " <> "http://example.com ").
Proof. repeat split; try reflexivity; discriminate. Qed.

(** C2, as stated, fails: with no network, four sub-lookups fail (DNS,
    HTTP, TLS, WHOIS; geolocation is skipped) and four optional fields are
    absent, yet [errors] has five entries; with a rejected token and a
    fallback that answers, no sub-lookup fails and no field is absent, yet
    [errors] has one entry. *)
Lemma F_Data_errors_exceed_failures :
  (outcome (F_Data Scenario.hostname Scenario.report Scenario.offline
                   "http://example.com") = inr Scenario.dark
   /\ length (errors Scenario.dark) = 5%nat
   /\ failedSubLookups Scenario.offline "http://example.com" "example.com"
      = 4%nat
   /\ absentOptionalFields Scenario.dark = 4%nat)
  /\ match outcome (F_Data Scenario.hostname Scenario.report
                           Scenario.badToken "example.com") with
     | inr d =>
         errors d = ["GEO ERROR (ipinfo): IPinfo HTTP 403: Forbidden"]
         /\ failedSubLookups Scenario.badToken (targetUrl d) (host d) = 0%nat
         /\ absentOptionalFields d = 0%nat
     | inl _ => False
     end.
Proof. vm_compute. repeat split. Qed.

Lemma F_Data_errors_length_witness :
  outcome (F_Data Scenario.hostname Scenario.report Scenario.offline
                  "http://example.com") = inr Scenario.dark
  /\ length (errors Scenario.dark)
     = (absentOptionalFields Scenario.dark
        + count (failed (dns_lookup Scenario.offline (host Scenario.dark)))
        + count (primaryFailed Scenario.offline (ips Scenario.dark)))%nat.
Proof.
  split; [reflexivity|].
  apply (F_Data_errors_length Scenario.hostname Scenario.report
           Scenario.offline "http://example.com").
  reflexivity.
Defined.

(** C3, as stated, fails: the target parses and every lookup answers, and
    [F_Data] still propagates an exception, that of writing the report. *)
Lemma F_Data_fails_on_unwritable_report :
  Scenario.hostname (normalizeUrl "example.com") = Some "example.com"
  /\ outcome (F_Data Scenario.hostname Scenario.report Scenario.readOnlyDisk
                     "example.com")
     = inl (mkExn "Error" "EROFS: read-only file system, open").
Proof. split; reflexivity. Qed.

Lemma F_Data_failure_sources_witness :
  Scenario.hostname (normalizeUrl "http://example.com") = Some "example.com"
  /\ exists d,
       outcome (F_Data Scenario.hostname Scenario.report Scenario.offline
                       "http://example.com") = inr d.
Proof.
  split; [reflexivity|].
  exact (proj1 (proj2 (F_Data_failure_sources
                         Scenario.hostname Scenario.report Scenario.offline
                         "http://example.com"))
               "example.com" "/home/user" eq_refl eq_refl
             (fun _ => eq_refl) (fun _ _ => eq_refl)).
Defined.

(** C4, as stated, fails: the verdict of scenario B, whose score is 10, has
    no [score] property, and no property of it holds 10. *)
Lemma Verdict_has_no_score :
  F_VF_score Scenario.hostname Scenario.dark = 10
  /\ Verdict_get (F_VF Scenario.hostname Scenario.dark) "score" = None
  /\ F_VF Scenario.hostname Scenario.dark
     = mkVerdict 1 RISKY
                 ["Not using HTTPS"; "HTTP request failed";
                  "No TLS certificate info"; "WHOIS lookup missing or failed";
                  "Errors encountered: 5"].
Proof. repeat split. Qed.

(** C5, as stated, fails: in scenario A the redirect check and the errors
    check both confirm a positive signal and push nothing, so the six
    conditions leave four reasons. *)
Lemma F_VF_silent_checks :
  checkRedirect Scenario.hostname Scenario.clean (0, []) = (0, [])
  /\ checkErrors Scenario.clean (0, []) = (0, [])
  /\ reasons (F_VF Scenario.hostname Scenario.clean)
     = ["Uses HTTPS"; "HTTP status OK: 200"; "TLS certificate present";
        "WHOIS data found"]
  /\ length (reasons (F_VF Scenario.hostname Scenario.clean)) <> 6%nat.
Proof. repeat split. discriminate. Qed.

Lemma F_VF_deterministic_witness :
  view Scenario.clean = view Scenario.cleanElsewhere
  /\ F_VF Scenario.hostname Scenario.clean
     = F_VF Scenario.hostname Scenario.cleanElsewhere.
Proof.
  split; [reflexivity|].
  apply (F_VF_deterministic Scenario.hostname Scenario.clean
           Scenario.cleanElsewhere).
  reflexivity.
Defined.


(* ===================================================================== *)
(** * Properties of the helpers                                           *)
(* ===================================================================== *)

Lemma allChars_app p s t :
  allChars p (s ++ t) = allChars p s && allChars p t.
Proof.
  induction s as [|c s IH]; [reflexivity|].
  cbn. now rewrite IH, andb_assoc.
Qed.

Lemma allChars_weaken (p q : ascii -> bool) s :
  (forall c, p c = true -> q c = true) ->
  allChars p s = true -> allChars q s = true.
Proof.
  intros Hpq. induction s as [|c s IH]; [reflexivity|].
  cbn. intros H. apply andb_true_iff in H as [Hc Hs].
  now rewrite (Hpq c Hc), (IH Hs).
Qed.

Lemma length_append s t :
  String.length (s ++ t) = (String.length s + String.length t)%nat.
Proof. induction s as [|c s IH]; [reflexivity|]. cbn. now rewrite IH. Qed.

Lemma append_assoc (s t u : string) : (s ++ t) ++ u = s ++ t ++ u.
Proof. induction s as [|c s IH]; [reflexivity|]. cbn. now rewrite IH. Qed.

Lemma slice_prefix (p s : string) :
  Js.slice (p ++ s) (String.length p) = s.
Proof.
  unfold Js.slice. rewrite length_append.
  replace (String.length p + String.length s - String.length p)%nat
    with (String.length s) by lia.
  induction p as [|c p IH]; cbn.
  - induction s as [|c s IH]; [reflexivity|]. cbn. now rewrite IH.
  - exact IH.
Qed.

Lemma prefix_split (p s : string) :
  String.prefix p s = true -> exists r, s = p ++ r.
Proof.
  revert s. induction p as [|c p IH]; intros s H.
  - now exists s.
  - destruct s as [|c' s]; [discriminate|]. cbn in H.
    destruct (ascii_dec c c') as [<-|]; [|discriminate].
    destruct (IH s H) as (r & ->). now exists r.
Qed.

Lemma prefix_app (p s : string) : String.prefix p (p ++ s) = true.
Proof.
  induction p as [|c p IH]; cbn; [now destruct s|].
  destruct (ascii_dec c c) as [_|N]; [exact IH|now destruct N].
Qed.

Lemma stripWww_www (h : string) : stripWww ("www." ++ h) = h.
Proof.
  unfold stripWww, Js.startsWith. rewrite prefix_app.
  apply (slice_prefix "www." h).
Qed.

(** X1.  [stripWww] removes one leading "www." and nothing else: a host that
    starts with "www." (in lower case) is that prefix followed by its
    stripped form, any other host is returned as it is, and stripping
    "www." followed by [h] gives back [h] whatever [h] is. *)
Theorem stripWww_one_label (h : string) :
  stripWww ("www." ++ h) = h
  /\ ((Js.startsWith h "www." = true /\ h = "www." ++ stripWww h)
      \/ (Js.startsWith h "www." = false /\ stripWww h = h)).
Proof.
  split; [apply stripWww_www|].
  unfold stripWww. destruct (Js.startsWith h "www.") eqn:E; [left|now right].
  split; [reflexivity|].
  destruct (prefix_split "www." h E) as (r & ->).
  f_equal. symmetry. exact (slice_prefix "www." r).
Qed.

Lemma safeFilename_from_safe b s :
  allChars isFilenameChar (safeFilename_from b s) = true.
Proof.
  revert b. induction s as [|c s IH]; intros b; [reflexivity|].
  cbn [safeFilename_from]. destruct (isFilenameChar c) eqn:E.
  - cbn. now rewrite E, IH.
  - destruct b; [apply IH|]. cbn. apply IH.
Qed.

Lemma safeFilename_from_fixed b s :
  allChars isFilenameChar s = true -> safeFilename_from b s = s.
Proof.
  revert b. induction s as [|c s IH]; intros b H; [reflexivity|].
  cbn in H. apply andb_true_iff in H as [Hc Hs].
  cbn [safeFilename_from]. now rewrite Hc, (IH false Hs).
Qed.

Lemma safeFilename_from_length b s :
  (String.length (safeFilename_from b s) <= String.length s)%nat.
Proof.
  revert b. induction s as [|c s IH]; intros b; [cbn; lia|].
  cbn [safeFilename_from]. destruct (isFilenameChar c).
  - cbn. specialize (IH false). lia.
  - destruct b; cbn; [specialize (IH true); lia|].
    specialize (IH true). lia.
Qed.

(** X2.  [safeFilename] returns only letters, digits, dots, underscores and
    hyphens, whatever it is given: in particular no path separator. *)
Theorem safeFilename_safe (s : string) :
  allChars isFilenameChar (safeFilename s) = true
  /\ allChars (fun c => negb (Ascii.eqb c "/") && negb (Ascii.eqb c "\"))
              (safeFilename s) = true.
Proof.
  assert (H : allChars isFilenameChar (safeFilename s) = true)
    by apply safeFilename_from_safe.
  split; [exact H|].
  revert H. apply allChars_weaken. intros c Hc.
  destruct (Ascii.eqb_spec c "/") as [->|_]; [discriminate|].
  destruct (Ascii.eqb_spec c "\") as [->|_]; [discriminate|].
  reflexivity.
Qed.

(** X3.  [safeFilename] leaves a name of safe characters as it is, so
    applying it twice is applying it once; and it never lengthens its
    argument. *)
Theorem safeFilename_idempotent (s : string) :
  (allChars isFilenameChar s = true -> safeFilename s = s)
  /\ safeFilename (safeFilename s) = safeFilename s
  /\ (String.length (safeFilename s) <= String.length s)%nat.
Proof.
  split; [apply safeFilename_from_fixed|]. split.
  - apply safeFilename_from_fixed, safeFilename_from_safe.
  - apply safeFilename_from_length.
Qed.

Lemma safeFilename_idempotent_witness :
  allChars isFilenameChar "example.com" = true
  /\ safeFilename "example.com" = "example.com".
Proof.
  split; [reflexivity|].
  exact (proj1 (safeFilename_idempotent "example.com") eq_refl).
Defined.

(** The decimal rendering of a number: digits, after a minus sign for a
    negative integer. *)
Lemma uint_digits u : allChars isDigit (NilEmpty.string_of_uint u) = true.
Proof. induction u; cbn; auto. Qed.

Lemma showNat_digits n : allChars isDigit (Js.showNat n) = true.
Proof.
  unfold Js.showNat, NilZero.string_of_uint.
  destruct (Nat.to_uint n) eqn:E; try reflexivity;
    rewrite <- E; pose proof (uint_digits (Nat.to_uint n)) as H;
    rewrite E in *; exact H.
Qed.

Lemma digit_is_safe c : isDigit c = true -> isFilenameChar c = true.
Proof.
  unfold isDigit, isFilenameChar. cbv zeta. intros ->.
  now rewrite !orb_true_r.
Qed.

Lemma showZ_safe z : allChars isFilenameChar (Js.showZ z) = true.
Proof.
  assert (D : forall u, allChars isFilenameChar (NilZero.string_of_uint u) = true).
  { intros u. apply (allChars_weaken isDigit); [apply digit_is_safe|].
    unfold NilZero.string_of_uint.
    destruct u; try reflexivity; apply (uint_digits (_ _)). }
  unfold Js.showZ, NilZero.string_of_int.
  destruct (Z.to_int z); [apply D|]. cbn. apply D.
Qed.

Lemma copiesStr_digits k : allChars isDigit (JsExt.copiesStr k "0") = true.
Proof. induction k; [reflexivity|exact IHk]. Qed.

Lemma pad_digits n : allChars isDigit (Clock.pad n) = true.
Proof.
  unfold Clock.pad, JsExt.padStart.
  now rewrite allChars_app, copiesStr_digits, showNat_digits.
Qed.

Lemma pad_safe n : allChars isFilenameChar (Clock.pad n) = true.
Proof.
  apply (allChars_weaken isDigit); [apply digit_is_safe|apply pad_digits].
Qed.

Lemma nowStamp_safe d : allChars isFilenameChar (Clock.nowStamp d) = true.
Proof.
  unfold Clock.nowStamp.
  rewrite !allChars_app, showZ_safe, !pad_safe. reflexivity.
Qed.

Lemma fileNameOf_safe domain stamp :
  allChars isFilenameChar stamp = true ->
  allChars isFilenameChar (fileNameOf domain stamp) = true.
Proof.
  intros H. unfold fileNameOf, safeFilename.
  rewrite !allChars_app, H, safeFilename_from_safe. reflexivity.
Qed.

Lemma pad_length n : (n < 100)%nat -> String.length (Clock.pad n) = 2%nat.
Proof.
  intros H.
  assert (A : forallb (fun k => (String.length (Clock.pad k) =? 2)%nat)
                      (seq 0 100) = true) by (vm_compute; reflexivity).
  rewrite forallb_forall in A.
  apply Nat.eqb_eq, A, in_seq. lia.
Qed.

Lemma year_length y :
  1000 <= y <= 9999 ->
  String.length (Js.showZ y) = 4%nat /\ allChars isDigit (Js.showZ y) = true.
Proof.
  intros H.
  assert (A : forallb
                (fun k => ((String.length (Js.showZ (1000 + Z.of_nat k)) =? 4)%nat
                           && allChars isDigit (Js.showZ (1000 + Z.of_nat k))))
                (seq 0 (90 * 100)) = true) by (vm_compute; reflexivity).
  rewrite forallb_forall in A.
  specialize (A (Z.to_nat (y - 1000))).
  replace (1000 + Z.of_nat (Z.to_nat (y - 1000))) with y in A by lia.
  apply andb_true_iff in A as [A1 A2]; [|apply in_seq; lia].
  now apply Nat.eqb_eq in A1.
Qed.

(** X4.  For a date of a four-digit year, [nowStamp] is the fifteen
    characters YYYYMMDD-HHMMSS: eight digits, a hyphen, six digits. *)
Theorem nowStamp_layout (d : Clock.DateParts) :
  Clock.inRange d ->
  1000 <= Clock.getFullYear d <= 9999 ->
  exists date time,
    Clock.nowStamp d = date ++ "-" ++ time
    /\ String.length date = 8%nat /\ String.length time = 6%nat
    /\ allChars isDigit date = true /\ allChars isDigit time = true
    /\ String.length (Clock.nowStamp d) = 15%nat.
Proof.
  intros (Hm & Hd & Hh & Hmi & Hs) Hy.
  destruct (year_length _ Hy) as [Ly Dy].
  exists (Js.showZ (Clock.getFullYear d) ++ Clock.pad (Clock.getMonth d + 1)
          ++ Clock.pad (Clock.getDate d)),
         (Clock.pad (Clock.getHours d) ++ Clock.pad (Clock.getMinutes d)
          ++ Clock.pad (Clock.getSeconds d)).
  assert (E : Clock.nowStamp d
              = (Js.showZ (Clock.getFullYear d)
                 ++ Clock.pad (Clock.getMonth d + 1)
                 ++ Clock.pad (Clock.getDate d))
                ++ "-" ++ Clock.pad (Clock.getHours d)
                ++ Clock.pad (Clock.getMinutes d)
                ++ Clock.pad (Clock.getSeconds d)).
  { unfold Clock.nowStamp. now rewrite !append_assoc. }
  repeat split.
  - exact E.
  - rewrite !length_append, Ly, !pad_length by lia. reflexivity.
  - rewrite !length_append, !pad_length by lia. reflexivity.
  - now rewrite !allChars_app, Dy, !pad_digits.
  - now rewrite !allChars_app, !pad_digits.
  - rewrite E, !length_append, Ly, !pad_length by lia. reflexivity.
Qed.

Lemma nowStamp_layout_witness :
  Clock.nowStamp (Clock.mkDateParts 2026 0 5 9 3 7) = "20260105-090307"
  /\ exists date time,
       Clock.nowStamp (Clock.mkDateParts 2026 0 5 9 3 7) = date ++ "-" ++ time
       /\ String.length date = 8%nat /\ String.length time = 6%nat
       /\ allChars isDigit date = true /\ allChars isDigit time = true
       /\ String.length (Clock.nowStamp (Clock.mkDateParts 2026 0 5 9 3 7))
          = 15%nat.
Proof.
  split; [reflexivity|].
  apply (nowStamp_layout (Clock.mkDateParts 2026 0 5 9 3 7)).
  - unfold Clock.inRange. cbn. lia.
  - cbn. lia.
Defined.

Section HelperClaims.

Variable URL_hostname : string -> option string.
Variable formatRawTxt : RawData -> string.


(** X6.  A final URL on the same host up to one leading "www." is no
    redirect for the scorer: when the host of the final URL is the host of
    the target, or one of the two is "www." followed by the other (which
    does not itself start with "www."), the redirect check adds no penalty
    and no reason. *)
Theorem redirect_ignores_www (d : RawData) (h : HttpInfo) (finalHost : string)
        (st : Locals) :
  http d = Some h ->
  URL_hostname (finalUrl h) = Some finalHost ->
  finalHost = host d
  \/ (finalHost = "www." ++ host d /\ Js.startsWith (host d) "www." = false)
  \/ (host d = "www." ++ finalHost /\ Js.startsWith finalHost "www." = false) ->
  checkRedirect URL_hostname d st = st.
Proof.
  intros Hh Hf Hsame. unfold checkRedirect, getHost. rewrite Hh, Hf.
  destruct (Js.truthy (finalUrl h)); [|reflexivity].
  assert (E : stripWww finalHost = stripWww (host d)).
  { destruct Hsame as [->|[[-> Hn]|[-> Hn]]]; [reflexivity| |].
    - rewrite (stripWww_www (host d)).
      unfold stripWww. now rewrite Hn.
    - rewrite (stripWww_www finalHost).
      unfold stripWww. now rewrite Hn. }
  rewrite E, String.eqb_refl. reflexivity.
Qed.

End HelperClaims.


Lemma redirect_ignores_www_witness :
  checkRedirect Scenario.hostname
    (set_http (Some (mkHttpInfo 200 40 "https://www.example.com/" []))
              Scenario.clean) (0, [])
  = (0, []).
Proof.
  apply (redirect_ignores_www Scenario.hostname _
           (mkHttpInfo 200 40 "https://www.example.com/" [])
           "www.example.com").
  - reflexivity.
  - reflexivity.
  - right. left. split; reflexivity.
Defined.

(* ===================================================================== *)
(** * Properties of the stars and of the share code                       *)
(* ===================================================================== *)

Lemma copies_length {A} k (x : A) : length (JsExt.copies k [x]) = k.
Proof. induction k; [reflexivity|]. cbn. now rewrite IHk. Qed.

Lemma starsText_inside n :
  0 <= n <= 5 ->
  starsText n
  = inr (JsExt.copies (Z.to_nat n) [BLACK_STAR]
         ++ JsExt.copies (Z.to_nat (5 - n)) [WHITE_STAR])%list.
Proof.
  intros H. unfold starsText, repeatUnit.
  destruct (Z.ltb_spec n 0); [lia|].
  destruct (Z.ltb_spec (5 - n) 0); [lia|]. reflexivity.
Qed.

(** X7.  [starsText] renders a number of stars from 0 to 5 as five symbols,
    that many black stars followed by white ones, and throws a
    [RangeError] for any other integer. *)
Theorem starsText_range (n : Z) :
  (0 <= n <= 5 ->
   exists s,
     starsText n = inr s
     /\ s = (JsExt.copies (Z.to_nat n) [BLACK_STAR]
             ++ JsExt.copies (5 - Z.to_nat n) [WHITE_STAR])%list
     /\ length s = 5%nat)
  /\ (n < 0 \/ 5 < n ->
      exists e, starsText n = inl e /\ exn_name e = "RangeError").
Proof.
  split.
  - intros H. eexists. split; [apply (starsText_inside n H)|].
    replace (Z.to_nat (5 - n)) with (5 - Z.to_nat n)%nat by lia.
    split; [reflexivity|].
    rewrite length_app, !copies_length. lia.
  - intros H. unfold starsText, repeatUnit.
    destruct (Z.ltb_spec n 0); [eexists; split; reflexivity|].
    destruct (Z.ltb_spec (5 - n) 0); [eexists; split; reflexivity|lia].
Qed.

Lemma starsText_range_witness :
  starsText 3
  = inr [BLACK_STAR; BLACK_STAR; BLACK_STAR; WHITE_STAR; WHITE_STAR]
  /\ exists e, starsText 6 = inl e /\ exn_name e = "RangeError".
Proof.
  split.
  - destruct (proj1 (starsText_range 3) ltac:(lia)) as (s & E & -> & _).
    exact E.
  - apply (proj2 (starsText_range 6)). right. lia.
Defined.

(** X8.  The stars of a verdict always render: for every [RawData],
    [starsText] applied to the stars that [F_VF] returns gives five
    symbols, as many black ones as there are stars, and does not throw. *)
Theorem verdict_stars_render (URL_hostname : string -> option string)
        (d : RawData) :
  let n := stars (F_VF URL_hostname d) in
  starsText n
  = inr (JsExt.copies (Z.to_nat n) [BLACK_STAR]
         ++ JsExt.copies (5 - Z.to_nat n) [WHITE_STAR])%list
  /\ 1 <= n <= 5.
Proof.
  cbv zeta. pose proof (F_VF_row URL_hostname d) as R.
  assert (H : 1 <= stars (F_VF URL_hostname d) <= 5) by (inversion R; lia).
  split; [|exact H].
  rewrite starsText_inside by lia.
  now replace (Z.to_nat (5 - stars (F_VF URL_hostname d)))
    with (5 - Z.to_nat (stars (F_VF URL_hostname d)))%nat by lia.
Qed.

(** ** Splitting at bars *)

Lemma split_nonempty sep s : exists p ps, JsExt.split sep s = p :: ps.
Proof.
  induction s as [|c s IH]; cbn; [eauto|].
  destruct (Ascii.eqb c sep); [eauto|].
  destruct IH as (p & ps & ->). eauto.
Qed.

Lemma split_parts_clean sep s :
  Forall (fun p => allChars (fun c => negb (Ascii.eqb c sep)) p = true)
         (JsExt.split sep s).
Proof.
  induction s as [|c s IH]; cbn; [repeat constructor|].
  destruct (Ascii.eqb c sep) eqn:E; [constructor; [reflexivity|exact IH]|].
  destruct (JsExt.split sep s) as [|p ps]; [repeat constructor; cbn; now rewrite E|].
  inversion IH; subst. constructor; [cbn; now rewrite E|assumption].
Qed.

Lemma split_app_sep sep u t :
  exists ps,
    JsExt.split sep (u ++ String sep t)
    = hd EmptyString (JsExt.split sep u) :: ps.
Proof.
  induction u as [|c u IH]; cbn.
  - rewrite Ascii.eqb_refl. eauto.
  - destruct (Ascii.eqb c sep); cbn; [eauto|].
    destruct IH as (ps & ->).
    destruct (split_nonempty sep u) as (p & qs & ->). cbn. eauto.
Qed.

Lemma split_clean sep u :
  allChars (fun c => negb (Ascii.eqb c sep)) u = true ->
  JsExt.split sep u = [u].
Proof.
  induction u as [|c u IH]; [reflexivity|]. cbn.
  intros H. apply andb_true_iff in H as [Hc Hu].
  apply negb_true_iff in Hc. now rewrite Hc, (IH Hu).
Qed.

Lemma beforeBar_clean u : noBar u = true -> beforeBar u = u.
Proof. intros H. unfold beforeBar. now rewrite (split_clean "|" u H). Qed.

Lemma trimEnd_app x y :
  Js.trimEnd y <> EmptyString -> Js.trimEnd (x ++ y) = x ++ Js.trimEnd y.
Proof.
  intros Hy. induction x as [|c x IH]; [reflexivity|].
  cbn [append]. rewrite trimEnd_cons, IH.
  destruct (x ++ Js.trimEnd y) eqn:E; [|reflexivity].
  destruct x; [cbn in E; contradiction|discriminate].
Qed.

(** The token, trimmed: everything up to the bar after the URL is kept. *)
Lemma shareToken_trim ts url label stars :
  exists t,
    Js.trim (makeShareToken ts url label stars)
    = "SAFE-LINK|" ++ url ++ String "|" t.
Proof.
  destruct (trimEnd_head "|" (label ++ "|" ++ Js.showZ stars ++ "|" ++ ts)
                         eq_refl) as (t & Et).
  exists t.
  assert (E1 : Js.trimEnd (url ++ "|" ++ label ++ "|" ++ Js.showZ stars
                           ++ "|" ++ ts)
               = url ++ String "|" t).
  { rewrite trimEnd_app.
    - f_equal. exact Et.
    - change ("|" ++ ?x) with (String "|" x). rewrite Et. discriminate. }
  unfold makeShareToken, Js.trim.
  change (Js.trimStart ("SAFE-LINK|" ++ ?x)) with ("SAFE-LINK|" ++ x).
  rewrite (trimEnd_app "SAFE-LINK|"); rewrite E1; [reflexivity|].
  destruct url; discriminate.
Qed.

Lemma parse_of_trimmed token url t :
  Js.trim token = "SAFE-LINK|" ++ url ++ String "|" t ->
  parseShareToken token
  = if hasHttpPrefix (beforeBar url) then Some (beforeBar url) else None.
Proof.
  intros E. unfold parseShareToken. cbv zeta. rewrite E.
  unfold Js.startsWith. rewrite prefix_app. cbn [negb].
  change (JsExt.split "|" ("SAFE-LINK|" ++ ?x))
    with ("SAFE-LINK" :: JsExt.split "|" x).
  destruct (split_app_sep "|" url t) as (ps & ->).
  cbn [length nth_error Nat.ltb Nat.leb].
  fold (beforeBar url). now destruct (hasHttpPrefix (beforeBar url)).
Qed.

(** X9.  A share code built by [makeShareToken] parses back to the part of
    its URL before the first bar, provided that part has an http:// or
    https:// prefix, and to nothing otherwise; whatever the label, the
    stars and the time are.  So a URL with the prefix and without a bar
    comes back unchanged, and a URL with a bar comes back cut. *)
Theorem shareToken_roundtrip (ts url label : string) (stars : Z) :
  parseShareToken (makeShareToken ts url label stars)
  = (if hasHttpPrefix (beforeBar url) then Some (beforeBar url) else None)
  /\ (noBar url = true -> hasHttpPrefix url = true ->
      parseShareToken (makeShareToken ts url label stars) = Some url).
Proof.
  destruct (shareToken_trim ts url label stars) as (t & E).
  pose proof (parse_of_trimmed _ url t E) as P.
  split; [exact P|].
  intros Hb Hp. rewrite P, (beforeBar_clean url Hb), Hp. reflexivity.
Qed.

Lemma shareToken_roundtrip_witness :
  noBar "https://example.com/a?b=c" = true
  /\ parseShareToken
       (makeShareToken "2026-01-01T12:00:00.000Z" "https://example.com/a?b=c"
                       "SAFE" 5)
     = Some "https://example.com/a?b=c".
Proof.
  split; [reflexivity|].
  apply (proj2 (shareToken_roundtrip "2026-01-01T12:00:00.000Z"
                  "https://example.com/a?b=c" "SAFE" 5)); reflexivity.
Defined.

(** A character that matches a character of "https://" is not white
    space. *)
Lemma scheme_char_solid p c :
  In p (list_ascii_of_string "https://") ->
  Js.ciEq p c = true -> Js.isWhiteSpace c = false.
Proof.
  intros Hp.
  assert (A : forallb
                (fun q =>
                   forallb (fun n => implb (Js.ciEq q (ascii_of_nat n))
                                           (negb (Js.isWhiteSpace (ascii_of_nat n))))
                           (seq 0 256))
                (list_ascii_of_string "https://") = true)
    by (vm_compute; reflexivity).
  pose proof (proj1 (forallb_forall _ _) A p Hp) as B.
  assert (I : In (nat_of_ascii c) (seq 0 256)).
  { apply in_seq. pose proof (nat_ascii_bounded c). lia. }
  pose proof (proj1 (forallb_forall _ _) B (nat_of_ascii c) I) as C.
  cbv beta in C. rewrite ascii_nat_embedding in C.
  intros E. rewrite E in C. now apply negb_true_iff in C.
Qed.

Lemma ciPrefix_trimEnd lit s :
  (forall p c, In p (list_ascii_of_string lit) ->
               Js.ciEq p c = true -> Js.isWhiteSpace c = false) ->
  Js.ciPrefix lit s = true -> Js.ciPrefix lit (Js.trimEnd s) = true.
Proof.
  revert s. induction lit as [|p lit IH]; intros s Hsolid H;
    [now destruct (Js.trimEnd s)|].
  destruct s as [|c s]; [discriminate|].
  cbn in H. apply andb_true_iff in H as [Hc Hs].
  assert (W : Js.isWhiteSpace c = false)
    by (apply (Hsolid p c); [now left|exact Hc]).
  assert (R : Js.ciPrefix lit (Js.trimEnd s) = true).
  { apply IH; [|exact Hs]. intros q x Hq. apply Hsolid. now right. }
  rewrite trimEnd_cons. destruct (Js.trimEnd s) as [|c' t].
  - rewrite W. cbn. rewrite Hc. now destruct lit.
  - cbn. now rewrite Hc, R.
Qed.

Lemma hasHttpPrefix_trim url :
  hasHttpPrefix url = true ->
  hasHttpPrefix (Js.trim url) = true /\ Js.trimStart url = url.
Proof.
  unfold hasHttpPrefix. intros H.
  assert (S : Js.trimStart url = url).
  { destruct url as [|c r]; [reflexivity|].
    assert (W : Js.isWhiteSpace c = false).
    { apply orb_true_iff in H as [H|H]; cbn in H;
        apply andb_true_iff in H as [Hc _];
        apply (scheme_char_solid "h" c); cbn; auto. }
    cbn. now rewrite W. }
  split; [|exact S]. unfold Js.trim. rewrite S.
  apply orb_true_iff in H as [H|H]; apply orb_true_iff; [left|right];
    (apply ciPrefix_trimEnd; [|exact H]);
    intros p c Hp; apply scheme_char_solid; cbn in *; tauto.
Qed.

(** X10.  What [parseShareToken] accepts: the token, trimmed, starts with
    "SAFE-LINK|"; the URL it returns has an http:// or https:// prefix and
    no bar; and scanning that URL prepends nothing to it: [normalizeUrl]
    only trims it. *)
Theorem parseShareToken_sound (token url : string) :
  parseShareToken token = Some url ->
  Js.startsWith (Js.trim token) "SAFE-LINK|" = true
  /\ hasHttpPrefix url = true
  /\ noBar url = true
  /\ normalizeUrl url = Js.trim url.
Proof.
  unfold parseShareToken. cbv zeta.
  destruct (Js.startsWith (Js.trim token) "SAFE-LINK|") eqn:Es;
    [|discriminate].
  cbn [negb]. destruct (length _ <? 2)%nat; [discriminate|].
  destruct (nth_error _ 1) as [u|] eqn:En; [|discriminate].
  destruct (hasHttpPrefix u) eqn:Ep; [|discriminate].
  cbn [negb]. intros [= <-].
  repeat split; [exact Ep| |].
  - pose proof (split_parts_clean "|" (Js.trim token)) as F.
    rewrite Forall_forall in F. apply F. eapply nth_error_In, En.
  - unfold normalizeUrl. cbv zeta.
    now rewrite (proj1 (hasHttpPrefix_trim u Ep)).
Qed.

Lemma parseShareToken_sound_witness :
  parseShareToken " SAFE-LINK|http://example.com |SAFE" = Some "http://example.com "
  /\ normalizeUrl "http://example.com " = "http://example.com".
Proof.
  split; [reflexivity|].
  exact (proj2 (proj2 (proj2
           (parseShareToken_sound " SAFE-LINK|http://example.com |SAFE"
                                  "http://example.com " eq_refl)))).
Defined.

(** ** The shell command *)

Lemma bareQuotes_escaped url tail :
  allChars (fun c => negb (Ascii.eqb c JsExt.BACKSLASH)) url = true ->
  bareQuotes (escapeQuotes url ++ tail) = bareQuotes tail.
Proof.
  induction url as [|c url IH]; [reflexivity|].
  cbn [allChars]. intros H. apply andb_true_iff in H as [Hc Hu].
  apply negb_true_iff in Hc.
  unfold escapeQuotes. cbn [JsExt.replaceChar].
  destruct (Ascii.eqb c JsExt.DQUOTE) eqn:Eq.
  - cbn. apply (IH Hu).
  - cbn [append bareQuotes]. rewrite Hc, Eq. apply (IH Hu).
Qed.

Lemma bareQuotes_open x :
  bareQuotes ("open " ++ String JsExt.DQUOTE x) = S (bareQuotes x).
Proof. reflexivity. Qed.

(** X11.  For a URL without a backslash, the command that [openInBrowser]
    hands to the shell has exactly two double quotes that are not escaped,
    the two that [openInBrowser] itself puts around the URL: no quote of
    the URL ends the quoted argument. *)
Theorem openCommand_quotes_balanced (url : string) :
  allChars (fun c => negb (Ascii.eqb c JsExt.BACKSLASH)) url = true ->
  bareQuotes (openCommand url) = 2%nat.
Proof.
  intros H.
  change (openCommand url)
    with ("open " ++ String JsExt.DQUOTE
                            (escapeQuotes url
                             ++ String JsExt.DQUOTE EmptyString)).
  rewrite bareQuotes_open, (bareQuotes_escaped url _ H). reflexivity.
Qed.

Lemma openCommand_quotes_balanced_witness :
  bareQuotes
    (openCommand ("http://example.com/?q=" ++ String JsExt.DQUOTE "quoted"))
  = 2%nat.
Proof.
  apply openCommand_quotes_balanced. reflexivity.
Defined.

(* ===================================================================== *)
(** * Properties of the HTTP request                                      *)
(* ===================================================================== *)

Lemma objGet_objSet k k' v obj :
  Probe.objGet k (Probe.objSet k' v obj)
  = if String.eqb k' k then Some v else Probe.objGet k obj.
Proof.
  induction obj as [|[a b] obj IH]; cbn; [reflexivity|].
  destruct (String.eqb_spec a k') as [->|Hak].
  - cbn. destruct (String.eqb k' k); reflexivity.
  - cbn. rewrite IH. destruct (String.eqb_spec a k) as [->|_]; [|reflexivity].
    destruct (String.eqb_spec k' k) as [->|_]; [congruence|reflexivity].
Qed.

Lemma objGet_fold k entries obj :
  Probe.objGet k
    (fold_left (fun o kv => Probe.objSet (fst kv) (snd kv) o) entries obj)
  = match lastValue k entries with
    | Some v => Some v
    | None => Probe.objGet k obj
    end.
Proof.
  revert obj. induction entries as [|[a b] entries IH]; intros obj;
    [reflexivity|].
  cbn [fold_left lastValue fst snd]. rewrite IH, objGet_objSet.
  destruct (lastValue k entries); [reflexivity|].
  destruct (String.eqb a k); reflexivity.
Qed.

Ltac probe_run :=
  unfold Probe.run, Probe.httpRequest, Probe.try_finally, Probe.bind,
    Probe.now, Probe.emit, Probe.doFetch, Probe.ret, Js.push;
  cbn [fst snd Probe.reads Probe.events app].

(** X12.  [httpRequest] arms its timer, sends a HEAD request, sends a GET
    request to the same URL exactly when the HEAD was answered with status
    405 or 403, and clears the timer last, whether it returns or throws:
    never more than two requests, and none after a request that threw. *)
Theorem httpRequest_events (net : Probe.Net) (url : string) :
  Probe.events (snd (Probe.run (Probe.httpRequest net url)))
  = ([Probe.SetTimeout 10000; Probe.Fetch Probe.HEAD url]
     ++ (if Probe.refused (Probe.fetch net Probe.HEAD url)
         then [Probe.Fetch Probe.GET url] else [])
     ++ [Probe.ClearTimeout])%list.
Proof.
  probe_run. unfold Probe.refused.
  destruct (Probe.fetch net Probe.HEAD url) as [e|head]; [reflexivity|].
  cbn [fst snd Probe.reads Probe.events app].
  destruct ((Probe.res_status head =? 405) || (Probe.res_status head =? 403));
    cbn [fst snd Probe.reads Probe.events app];
    [destruct (Probe.fetch net Probe.GET url)|]; reflexivity.
Qed.


(* ===================================================================== *)
(** * Properties of the prompt                                            *)
(* ===================================================================== *)

Section PromptClaims.

Variable URL_hostname : string -> option string.
Variable formatRawTxt : RawData -> string.
Variable env : Env.
Variable con : Ui.Console.

Local Abbreviation F_Data := (F_Data URL_hostname formatRawTxt env).
Local Abbreviation F_VF := (F_VF URL_hostname).
Local Abbreviation F_UI := (F_UI URL_hostname formatRawTxt env con).
Local Abbreviation RUN := (RUN URL_hostname formatRawTxt env con).

Ltac ui_step :=
  unfold Ui.bind, Ui.log, Ui.logWide, Ui.emit, Ui.question, Ui.ret, Ui.lift,
    Ui.scan, Ui.doExec, Ui.catch, Js.push;
  cbn [fst snd Ui.asked Ui.events].

Lemma forEach_emit (g : string -> Ui.Event) (l : list string) (st : Ui.State) :
  Ui.forEach
    (fun r st' =>
       (inr tt, Ui.mkState (Ui.asked st') (Ui.events st' ++ [g r])%list))
    l st
  = (inr tt, Ui.mkState (Ui.asked st) (Ui.events st ++ map g l)%list).
Proof.
  revert st. induction l as [|r l IH]; intros st.
  - cbn. rewrite app_nil_r. now destruct st.
  - cbn [Ui.forEach map]. unfold Ui.bind at 1. rewrite IH.
    cbn [Ui.asked Ui.events]. now rewrite <- app_assoc.
Qed.

(** The prompt up to the scan. *)
Lemma F_UI_run_none :
  chosenUrl con = None ->
  Ui.run F_UI = (inr tt, Ui.mkState 3 (opening con)).
Proof.
  unfold chosenUrl, opening, Ui.run, F_UI. ui_step.
  destruct (String.eqb (Js.trim (Ui.typed con 0)) "2"); [|discriminate].
  ui_step. intros ->. ui_step. reflexivity.
Qed.

Lemma F_UI_run_failed (u : string) (e : Exn) :
  chosenUrl con = Some u ->
  outcome (F_Data u) = inl e ->
  Ui.run F_UI
  = (inl e,
     Ui.mkState 2 (opening con ++ map Ui.Lookup (calls (F_Data u)))%list).
Proof.
  unfold chosenUrl, opening, Ui.run, F_UI. ui_step.
  destruct (String.eqb (Js.trim (Ui.typed con 0)) "2"); ui_step.
  - intros -> ->. ui_step. reflexivity.
  - intros [= <-] ->. reflexivity.
Qed.

Lemma stars_in_range (d : RawData) : 0 <= stars (F_VF d) <= 5.
Proof. pose proof (F_VF_row URL_hostname d) as R. inversion R; lia. Qed.

Lemma F_UI_run_scanned (u : string) (data : RawData) :
  chosenUrl con = Some u ->
  outcome (F_Data u) = inr data ->
  let command := openCommand (targetUrl data) in
  Ui.run F_UI
  = ((if confirmed con then Ui.exec con command else inr tt),
     Ui.mkState
       (if confirmed con && failed (Ui.exec con command) then 3%nat else 4%nat)
       (opening con ++ map Ui.Lookup (calls (F_Data u))
        ++ verdictLines con data (F_VF data)
        ++ (if confirmed con then
              [Ui.Print (JsExt.wide "Opening in browser..."); Ui.Exec command]
              ++ (if failed (Ui.exec con command) then []
                  else [Ui.Question pressEnter; Ui.Close])
            else [Ui.Print (JsExt.wide "Canceled.");
                  Ui.Question pressEnter; Ui.Close]))%list).
Proof.
  intros Hu Hd. cbv zeta.
  assert (Hs : starsText (stars (F_VF data))
               = inr (JsExt.copies (Z.to_nat (stars (F_VF data))) [BLACK_STAR]
                      ++ JsExt.copies (Z.to_nat (5 - stars (F_VF data)))
                                      [WHITE_STAR])%list)
    by apply starsText_inside, stars_in_range.
  revert Hu. unfold chosenUrl, opening, verdictLines, shareOf, confirmed,
    Ui.run, F_UI, openInBrowser.
  ui_step.
  destruct (String.eqb (Js.trim (Ui.typed con 0)) "2"); ui_step.
  - intros ->. ui_step. rewrite Hd, Hs. ui_step. rewrite (forEach_emit (fun r => Ui.Print (JsExt.wide ("  - " ++ r)))).
    ui_step.
    destruct (_ || _); ui_step.
    + destruct (Ui.exec con _) as [x|[]]; cbn [failed andb app];
        repeat (rewrite <- ?app_assoc; cbn [app]); reflexivity.
    + cbn [andb app]. repeat (rewrite <- ?app_assoc; cbn [app]).
      reflexivity.
  - intros [= <-]. rewrite Hd, Hs. ui_step. rewrite (forEach_emit (fun r => Ui.Print (JsExt.wide ("  - " ++ r)))).
    ui_step.
    destruct (_ || _); ui_step.
    + destruct (Ui.exec con _) as [x|[]]; cbn [failed andb app];
        repeat (rewrite <- ?app_assoc; cbn [app]); reflexivity.
    + cbn [andb app]. repeat (rewrite <- ?app_assoc; cbn [app]).
      reflexivity.
Qed.

(** The top level adds the report of an exception and the exit. *)
Lemma RUN_run :
  Ui.run RUN
  = match Ui.run F_UI with
    | (inr a, st) => (inr a, st)
    | (inl e, st) =>
        (inr tt,
         Ui.mkState (Ui.asked st)
                    (Ui.events st ++ [Ui.PrintError e; Ui.Exit 1])%list)
    end.
Proof.
  unfold RUN, Ui.run, Ui.catch.
  destruct (F_UI _) as [[e|a] st]; [|reflexivity].
  ui_step. now rewrite <- app_assoc.
Qed.

Lemma filter_map_none {A} (p : Ui.Event -> bool) (g : A -> Ui.Event) l :
  (forall x, p (g x) = false) -> filter p (map g l) = [].
Proof.
  intros H. induction l as [|x l IH]; [reflexivity|].
  cbn. now rewrite H.
Qed.

Lemma filter_map_all {A} (p : Ui.Event -> bool) (g : A -> Ui.Event) l :
  (forall x, p (g x) = true) -> filter p (map g l) = map g l.
Proof.
  intros H. induction l as [|x l IH]; [reflexivity|].
  cbn. now rewrite H, IH.
Qed.

Lemma opening_quiet :
  filter Ui.isLookup (opening con) = []
  /\ filter Ui.isExec (opening con) = [].
Proof.
  unfold opening.
  destruct (String.eqb _ "2"); [destruct (parseShareToken _)|]; now split.
Qed.

Lemma verdictLines_quiet data v :
  filter Ui.isLookup (verdictLines con data v) = []
  /\ filter Ui.isExec (verdictLines con data v) = [].
Proof.
  unfold verdictLines. split; cbn [app filter Ui.isLookup Ui.isExec];
    rewrite filter_app, filter_map_none by reflexivity; reflexivity.
Qed.

Lemma opening_open u : chosenUrl con = Some u -> ~ In Ui.Close (opening con).
Proof.
  unfold chosenUrl, opening.
  destruct (String.eqb _ "2"); [intros ->|intros _]; cbn;
    intuition discriminate.
Qed.

Lemma verdictLines_open data v : ~ In Ui.Close (verdictLines con data v).
Proof.
  unfold verdictLines. cbn [app]. intros H.
  repeat (destruct H as [H|H]; [discriminate|]).
  apply in_app_iff in H as [H|H].
  - apply in_map_iff in H as (r & Hr & _). discriminate.
  - cbn in H. intuition discriminate.
Qed.

Lemma target_of_scan (u : string) (data : RawData) :
  outcome (F_Data u) = inr data -> targetUrl data = normalizeUrl u.
Proof.
  intros H.
  now destruct (F_Data_returns URL_hostname formatRawTxt env u data H)
    as (h & cwd & _ & ->).
Qed.

(** X14.  A run of the program scans at most once: the calls to the outside
    in its log are those of the one run of [F_Data] on the URL the prompt
    settled on, and there is none when the share code did not parse. *)
Theorem F_UI_single_scan :
  filter Ui.isLookup (Ui.events (snd (Ui.run RUN)))
  = match chosenUrl con with
    | Some u => map Ui.Lookup (calls (F_Data u))
    | None => []
    end.
Proof.
  rewrite RUN_run.
  destruct (chosenUrl con) as [u|] eqn:Eu.
  - destruct (outcome (F_Data u)) as [e|data] eqn:Eo.
    + rewrite (F_UI_run_failed u e Eu Eo). cbn [snd Ui.events].
      rewrite !filter_app, (proj1 opening_quiet),
        filter_map_all by reflexivity.
      cbn. now rewrite app_nil_r.
    + rewrite (F_UI_run_scanned u data Eu Eo).
      assert (Q : forall a st,
                 filter Ui.isLookup
                   (Ui.events
                      (snd (match a with
                            | inl e =>
                                (inr tt,
                                 Ui.mkState (Ui.asked st)
                                   (Ui.events st
                                    ++ [Ui.PrintError e; Ui.Exit 1])%list)
                            | inr x => (@inr Exn unit x, st)
                            end)))
                 = filter Ui.isLookup (Ui.events st)).
      { intros [e|x] st; cbn [snd Ui.events]; [|reflexivity].
        rewrite filter_app. cbn. now rewrite app_nil_r. }
      rewrite Q. cbn [Ui.events].
      rewrite !filter_app, (proj1 opening_quiet),
        (proj1 (verdictLines_quiet _ _)), filter_map_all by reflexivity.
      destruct (confirmed con); [destruct (failed _)|]; cbn;
        now rewrite app_nil_r.
  - rewrite (F_UI_run_none Eu). cbn [snd Ui.events].
    apply opening_quiet.
Qed.

(** X15.  A share code that does not parse ends the session at once: the
    prompt says so, waits for ENTER and closes; nothing is looked up,
    nothing is executed, and the program ends normally. *)
Theorem F_UI_invalid_share_code :
  Js.trim (Ui.typed con 0) = "2" ->
  parseShareToken (Ui.typed con 1) = None ->
  Ui.run RUN
  = (inr tt,
     Ui.mkState 3
       [Ui.Print (JsExt.wide (String JsExt.LF "=== SAFE-LINK ==="));
        Ui.Print (JsExt.wide "1) Scan a URL");
        Ui.Print (JsExt.wide "2) Paste a share code (from a friend)");
        Ui.Question "Choose (1/2): ";
        Ui.Question "Paste share code: ";
        Ui.Print (JsExt.wide "Invalid share code.");
        Ui.Question pressEnter;
        Ui.Close]).
Proof.
  intros Hm Hp.
  assert (Eu : chosenUrl con = None)
    by (unfold chosenUrl; now rewrite Hm, Hp).
  rewrite RUN_run, (F_UI_run_none Eu). unfold opening.
  now rewrite Hm, Hp.
Qed.

(** X16.  After a scan that returned, the browser is opened exactly when
    the answer to the last question is "y" or "yes" (in any case, spaces
    around it aside), and then on the normalised target; the prompt fails
    only if that command fails, and in that case it neither asks for ENTER
    nor closes. *)
Theorem F_UI_browser (u : string) (data : RawData) :
  chosenUrl con = Some u ->
  outcome (F_Data u) = inr data ->
  let command := openCommand (normalizeUrl u) in
  filter Ui.isExec (Ui.events (snd (Ui.run RUN)))
  = (if confirmed con then [Ui.Exec command] else [])
  /\ fst (Ui.run F_UI) = (if confirmed con then Ui.exec con command else inr tt)
  /\ (In Ui.Close (Ui.events (snd (Ui.run RUN)))
      <-> fst (Ui.run F_UI) = inr tt).
Proof.
  intros Eu Eo. cbv zeta.
  rewrite RUN_run, (F_UI_run_scanned u data Eu Eo).
  rewrite (target_of_scan u data Eo).
  destruct (confirmed con); cbn [andb].
  - destruct (Ui.exec con (openCommand (normalizeUrl u))) as [e|[]];
      cbn [failed fst snd Ui.events Ui.asked].
    + rewrite <- !app_assoc, !filter_app, (proj2 opening_quiet),
        (proj2 (verdictLines_quiet _ _)), filter_map_none by reflexivity.
      split; [reflexivity|]. split; [reflexivity|].
      split; [|discriminate].
      rewrite !in_app_iff. intros [H|[H|[H|[H|H]]]]; exfalso.
      * now apply (opening_open u Eu).
      * apply in_map_iff in H as (c & Hc & _). discriminate.
      * now apply (verdictLines_open data (F_VF data)).
      * cbn in H. intuition discriminate.
      * cbn in H. intuition discriminate.
    + rewrite !filter_app, (proj2 opening_quiet),
        (proj2 (verdictLines_quiet _ _)), filter_map_none by reflexivity.
      split; [reflexivity|]. split; [reflexivity|].
      split; [reflexivity|]. intros _.
      rewrite !in_app_iff. right. right. right. cbn. auto.
  - cbn [fst snd Ui.events].
    rewrite !filter_app, (proj2 opening_quiet),
      (proj2 (verdictLines_quiet _ _)), filter_map_none by reflexivity.
    split; [reflexivity|]. split; [reflexivity|].
    split; [reflexivity|]. intros _.
    rewrite !in_app_iff. right. right. right. cbn. auto.
Qed.

(** X17.  When the scan throws (a target that does not parse, or a report
    that cannot be saved), the prompt stops there: after the calls of the
    scan the log has only the report of the exception and the exit with
    code 1; no verdict is printed, no further question is asked, the
    browser is not opened and the prompt is not closed. *)
Theorem F_UI_scan_failure (u : string) (e : Exn) :
  chosenUrl con = Some u ->
  outcome (F_Data u) = inl e ->
  fst (Ui.run F_UI) = inl e
  /\ Ui.run RUN
     = (inr tt,
        Ui.mkState 2
          (opening con ++ map Ui.Lookup (calls (F_Data u))
           ++ [Ui.PrintError e; Ui.Exit 1])%list)
  /\ ~ In Ui.Close (Ui.events (snd (Ui.run RUN))).
Proof.
  intros Eu Eo.
  rewrite RUN_run, (F_UI_run_failed u e Eu Eo). cbn [fst snd Ui.asked Ui.events].
  split; [reflexivity|]. split; [now rewrite <- app_assoc|].
  rewrite !in_app_iff. intros [[H|H]|H].
  - now apply (opening_open u Eu).
  - apply in_map_iff in H as (c & Hc & _). discriminate.
  - cbn in H. intuition discriminate.
Qed.

Lemma normalizeUrl_prefixed raw : hasHttpPrefix (normalizeUrl raw) = true.
Proof.
  unfold normalizeUrl. cbv zeta.
  destruct (hasHttpPrefix (Js.trim raw)) eqn:P; [exact P|reflexivity].
Qed.

Lemma verdictLines_share data v :
  In (Ui.Print (JsExt.wide (shareOf con data v))) (verdictLines con data v).
Proof.
  unfold verdictLines. rewrite !in_app_iff. right. right. cbn. auto.
Qed.

(** X18.  The share code that the prompt prints after a scan is accepted
    back by [parseShareToken]: it gives the normalised target of the scan
    when that target has no bar, and in general its part before the first
    bar when that part still has its http:// or https:// prefix. *)
Theorem F_UI_share_code (u : string) (data : RawData) :
  chosenUrl con = Some u ->
  outcome (F_Data u) = inr data ->
  let share := shareOf con data (F_VF data) in
  In (Ui.Print (JsExt.wide share)) (Ui.events (snd (Ui.run RUN)))
  /\ parseShareToken share
     = (if hasHttpPrefix (beforeBar (normalizeUrl u))
        then Some (beforeBar (normalizeUrl u)) else None)
  /\ (noBar (normalizeUrl u) = true ->
      parseShareToken share = Some (normalizeUrl u)).
Proof.
  intros Eu Eo. cbv zeta.
  assert (P : parseShareToken (shareOf con data (F_VF data))
              = if hasHttpPrefix (beforeBar (normalizeUrl u))
                then Some (beforeBar (normalizeUrl u)) else None).
  { unfold shareOf. rewrite (target_of_scan u data Eo).
    destruct (shareToken_trim (Ui.toISOString_now con) (normalizeUrl u)
                (labelText (label (F_VF data))) (stars (F_VF data)))
      as (t & E).
    exact (parse_of_trimmed _ _ t E). }
  split; [|split; [exact P|]].
  - rewrite RUN_run, (F_UI_run_scanned u data Eu Eo).
    assert (Q : forall a st l,
               In l (Ui.events st) ->
               In l (Ui.events
                       (snd (match a with
                             | inl e =>
                                 (inr tt,
                                  Ui.mkState (Ui.asked st)
                                    (Ui.events st
                                     ++ [Ui.PrintError e; Ui.Exit 1])%list)
                             | inr x => (@inr Exn unit x, st)
                             end)))).
    { intros [e|x] st l H; cbn [snd Ui.events]; [|exact H].
      apply in_app_iff. now left. }
    apply Q. cbn [Ui.events]. rewrite !in_app_iff.
    right. right. left. apply verdictLines_share.
  - intros Hb. rewrite P, (beforeBar_clean _ Hb), normalizeUrl_prefixed.
    reflexivity.
Qed.

End PromptClaims.

Lemma F_UI_invalid_share_code_witness :
  parseShareToken "SAFE-LINK|ftp://example.com|SAFE|5|now" = None
  /\ Ui.events
       (snd (Ui.run (RUN Scenario.hostname Scenario.report Scenario.online
                         (Session.console
                            [" 2"; "SAFE-LINK|ftp://example.com|SAFE|5|now"]
                            (inr tt)))))
     = [Ui.Print (JsExt.wide (String JsExt.LF "=== SAFE-LINK ==="));
        Ui.Print (JsExt.wide "1) Scan a URL");
        Ui.Print (JsExt.wide "2) Paste a share code (from a friend)");
        Ui.Question "Choose (1/2): ";
        Ui.Question "Paste share code: ";
        Ui.Print (JsExt.wide "Invalid share code.");
        Ui.Question pressEnter;
        Ui.Close].
Proof.
  split; [reflexivity|].
  rewrite (F_UI_invalid_share_code Scenario.hostname Scenario.report
             Scenario.online
             (Session.console [" 2"; "SAFE-LINK|ftp://example.com|SAFE|5|now"]
                              (inr tt)) eq_refl eq_refl).
  reflexivity.
Defined.

Lemma F_UI_browser_witness :
  chosenUrl (Session.console ["1"; " example.com "; " YES "] (inr tt))
  = Some "example.com"
  /\ filter Ui.isExec
       (Ui.events
          (snd (Ui.run (RUN Scenario.hostname Scenario.report Scenario.online
                            (Session.console ["1"; " example.com "; " YES "]
                                             (inr tt))))))
     = [Ui.Exec (openCommand "https://example.com")].
Proof.
  split; [reflexivity|].
  exact (proj1 (F_UI_browser Scenario.hostname Scenario.report Scenario.online
                  (Session.console ["1"; " example.com "; " YES "] (inr tt))
                  "example.com" Scenario.clean eq_refl eq_refl)).
Defined.

Lemma F_UI_scan_failure_witness :
  outcome (F_Data Scenario.hostname Scenario.report Scenario.online
                  "not a url") = inl InvalidURL
  /\ ~ In Ui.Close
         (Ui.events
            (snd (Ui.run (RUN Scenario.hostname Scenario.report Scenario.online
                              (Session.console ["1"; "not a url"; "y"]
                                               (inr tt)))))).
Proof.
  split; [reflexivity|].
  exact (proj2 (proj2
           (F_UI_scan_failure Scenario.hostname Scenario.report Scenario.online
              (Session.console ["1"; "not a url"; "y"] (inr tt))
              "not a url" InvalidURL eq_refl eq_refl))).
Defined.

Lemma F_UI_share_code_witness :
  noBar (normalizeUrl "example.com") = true
  /\ parseShareToken
       (shareOf (Session.console ["1"; "example.com"; "n"] (inr tt))
                Scenario.clean (F_VF Scenario.hostname Scenario.clean))
     = Some "https://example.com".
Proof.
  split; [reflexivity|].
  exact (proj2 (proj2
           (F_UI_share_code Scenario.hostname Scenario.report Scenario.online
              (Session.console ["1"; "example.com"; "n"] (inr tt))
              "example.com" Scenario.clean eq_refl eq_refl)) eq_refl).
Defined.

(* ===================================================================== *)
(** * Properties of the placeholder analyzer                              *)
(* ===================================================================== *)

(** X19.  [clamp] with bounds in order returns a value within the bounds,
    returns a value within the bounds unchanged, and is the nearer bound
    otherwise; with bounds out of order it returns the lower bound given. *)
Theorem clamp_bounds (n lo hi : Z) :
  (lo <= hi ->
   lo <= Analyzer.clamp n lo hi <= hi
   /\ (lo <= n <= hi -> Analyzer.clamp n lo hi = n)
   /\ (n < lo -> Analyzer.clamp n lo hi = lo)
   /\ (hi < n -> Analyzer.clamp n lo hi = hi))
  /\ (hi < lo -> Analyzer.clamp n lo hi = lo).
Proof. unfold Analyzer.clamp. lia. Qed.

Lemma clamp_bounds_witness :
  Analyzer.clamp 130 0 100 = 100 /\ Analyzer.clamp 42 0 100 = 42.
Proof.
  destruct (proj1 (clamp_bounds 130 0 100) ltac:(lia)) as (_ & _ & _ & H1).
  destruct (proj1 (clamp_bounds 42 0 100) ltac:(lia)) as (_ & H2 & _).
  split; [apply H1; lia|apply H2; lia].
Defined.

Ltac analyze b target :=
  unfold Analyzer.analyzeUrl, Analyzer.allGood;
  destruct (Analyzer.parseUrl b target) as [u|];
  [ destruct (String.eqb (Analyzer.protocol u) "https:");
    destruct (Analyzer.isSuspicious _);
    (destruct (Analyzer.probe b target) as [e|res];
     [ | destruct (Z.leb_spec 200 (Analyzer.res_status res));
         destruct (Z.ltb_spec (Analyzer.res_status res) 400);
         destruct (Z.ltb_spec (Analyzer.elapsedMs b) 800);
         destruct (Z.ltb_spec 3000 (Analyzer.elapsedMs b));
         destruct (Analyzer.isHtml res) ])
  | ];
  cbn [andb negb Analyzer.score Analyzer.color Analyzer.reasons Analyzer.http].

(** X20.  [analyzeUrl] gives a URL that does not parse the score 0, the
    colour Black and the single reason "Invalid URL", without any request;
    a URL that parses gets a score from 3 to 80, so that the clamp to
    0..100 never changes it.  In both cases the colour is that of the
    score. *)
Theorem analyzeUrl_score_range (b : Analyzer.Browser) (target : string) :
  let r := Analyzer.analyzeUrl b target in
  Analyzer.color r = Analyzer.scoreToColor (Analyzer.score r)
  /\ Analyzer.url r = target
  /\ match Analyzer.parseUrl b target with
     | None =>
         r = Analyzer.mkResult target 0 "Black" ["Invalid URL"] None None
     | Some _ => 3 <= Analyzer.score r <= 80
     end.
Proof.
  cbv zeta. analyze b target; try lia;
    repeat split; try reflexivity; cbn; lia.
Qed.

(** X21.  [analyzeUrl] answers Green exactly when every signal is good:
    the URL parses, uses https, has a TLD that is not on the list, and was
    answered with a status from 200 to 399, in less than 800 ms, with HTML
    content.  That is also the only way to the score 80. *)
Theorem analyzeUrl_green (b : Analyzer.Browser) (target : string) :
  (Analyzer.color (Analyzer.analyzeUrl b target) = "Green"
   <-> Analyzer.allGood b target = true)
  /\ (Analyzer.score (Analyzer.analyzeUrl b target) = 80
      <-> Analyzer.allGood b target = true).
Proof.
  analyze b target; try lia;
    (split; split; intros G; try reflexivity; try discriminate G;
     cbn in G; try discriminate G; try lia).
Qed.

(* ===================================================================== *)
(** * More on the evidence aggregator                                     *)
(* ===================================================================== *)

Lemma toLowerCase_app s t :
  Js.toLowerCase (s ++ t) = Js.toLowerCase s ++ Js.toLowerCase t.
Proof. induction s as [|c s IH]; [reflexivity|]. cbn. now rewrite IH. Qed.

(** Lower-casing a character and comparing it with a character of
    "https://" is matching it against that character without regard to
    case. *)
Lemma lower_char_matches p c :
  In p (list_ascii_of_string "https://") ->
  (if ascii_dec p (Js.lowerChar c) then true else false) = Js.ciEq p c.
Proof.
  intros Hp.
  assert (A : forallb
                (fun q =>
                   forallb
                     (fun n =>
                        Bool.eqb
                          (if ascii_dec q (Js.lowerChar (ascii_of_nat n))
                           then true else false)
                          (Js.ciEq q (ascii_of_nat n)))
                     (seq 0 256))
                (list_ascii_of_string "https://") = true)
    by (vm_compute; reflexivity).
  pose proof (proj1 (forallb_forall _ _) A p Hp) as B.
  assert (I : In (nat_of_ascii c) (seq 0 256)).
  { apply in_seq. pose proof (nat_ascii_bounded c). lia. }
  pose proof (proj1 (forallb_forall _ _) B (nat_of_ascii c) I) as C.
  cbv beta in C. rewrite ascii_nat_embedding in C.
  now apply Bool.eqb_prop in C.
Qed.

Lemma lower_prefix_matches lit s :
  (forall p, In p (list_ascii_of_string lit) ->
             In p (list_ascii_of_string "https://")) ->
  String.prefix lit (Js.toLowerCase s) = Js.ciPrefix lit s.
Proof.
  revert s. induction lit as [|p lit IH]; intros s Hin.
  - now destruct s.
  - destruct s as [|c s]; [reflexivity|].
    cbn [Js.toLowerCase String.prefix Js.ciPrefix].
    rewrite <- (lower_char_matches p c) by (apply Hin; now left).
    rewrite <- IH by (intros q Hq; apply Hin; now right).
    now destruct (ascii_dec p (Js.lowerChar c)).
Qed.

Section AggregatorExtras.

Variable URL_hostname : string -> option string.
Variable formatRawTxt : RawData -> string.

Local Abbreviation F_Data := (F_Data URL_hostname formatRawTxt).
Local Abbreviation F_VF_score := (F_VF_score URL_hostname).

(** X22.  The scheme test of the scorer (lower-case the target, then look
    for "https://") and the prefix test of the normaliser (match
    "https://" without regard to case) agree on every string; so a target
    that [normalizeUrl] had to complete counts as HTTPS for [F_VF], and a
    target is scored "Not using HTTPS" only when it was typed with
    http://. *)
Theorem https_tests_agree (d : RawData) (raw : string) :
  isHttps d = Js.ciPrefix "https://" (targetUrl d)
  /\ (hasHttpPrefix (Js.trim raw) = false ->
      isHttps (set_targetUrl (normalizeUrl raw) d) = true)
  /\ (isHttps (set_targetUrl (normalizeUrl raw) d) = false ->
      Js.ciPrefix "http://" (Js.trim raw) = true).
Proof.
  assert (E : forall x, isHttps x = Js.ciPrefix "https://" (targetUrl x)).
  { intros x. unfold isHttps, Js.startsWith.
    apply lower_prefix_matches. auto. }
  split; [apply E|]. rewrite E. cbn [set_targetUrl targetUrl].
  unfold normalizeUrl, hasHttpPrefix. cbv zeta.
  destruct (Js.ciPrefix "http://" (Js.trim raw)) eqn:P1;
    destruct (Js.ciPrefix "https://" (Js.trim raw)) eqn:P2;
    cbn [orb negb]; split; intros H; try discriminate; try reflexivity;
    try congruence.
Qed.

(** X23.  A target that does not parse is rejected before anything is asked
    of the outside: [F_Data] throws the [TypeError] and its log of calls
    is empty; and only then is the log empty. *)
Theorem F_Data_invalid_target (env : Env) (raw : string) :
  (URL_hostname (normalizeUrl raw) = None ->
   run (F_Data env raw) = (inl InvalidURL, []))
  /\ (calls (F_Data env raw) = [] -> URL_hostname (normalizeUrl raw) = None).
Proof.
  unfold calls. rewrite F_Data_run.
  destruct (URL_hostname (normalizeUrl raw)) as [h|]; split; try reflexivity;
    try discriminate.
  cbv zeta. unfold lookups.
  destruct (process_cwd env); [|destruct (fs_mkdir env _)]; cbn; discriminate.
Qed.

(** X24.  The lookups of a run come in a fixed order and do not depend on
    each other's outcome: DNS on the host, the geolocation attempts on the
    first address, the HTTP request on the normalised target, the
    certificate of the host, WHOIS on the host without its "www."; then
    the directory and the file.  A failure of an earlier lookup never
    skips a later one. *)
Theorem F_Data_lookup_order (env : Env) (raw h : string) :
  URL_hostname (normalizeUrl raw) = Some h ->
  calls (F_Data env raw)
  = ([Call_dns_lookup h] ++ geoAttempts env (resolved env h)
     ++ [Call_httpRequest (normalizeUrl raw); Call_getTlsCert h;
         Call_whois (stripWww h)]
     ++ match process_cwd env with
        | inl _ => []
        | inr cwd =>
            Call_mkdir (outDirOf env cwd)
            :: (if failed (fs_mkdir env (outDirOf env cwd)) then []
                else [Call_writeFile
                        (reportPath env cwd h)
                        (formatRawTxt
                           (evidence env (normalizeUrl raw) h EmptyString))])
        end)%list.
Proof.
  intros Hh. unfold calls. rewrite F_Data_run, Hh. cbv zeta. unfold lookups.
  destruct (process_cwd env) as [e|cwd]; cbn [snd].
  - repeat (rewrite <- ?app_assoc; cbn [app]); rewrite ?app_nil_r;
      reflexivity.
  - destruct (fs_mkdir env (outDirOf env cwd)); cbn [snd failed];
      repeat (rewrite <- ?app_assoc; cbn [app]); reflexivity.
Qed.

(** X25.  The evidence of a run records the target as normalised, its host,
    the host without its "www." and every resolved address, and lists its
    errors in the order of the lookups, each under the prefix of its
    lookup: DNS, geolocation, HTTP, TLS, WHOIS. *)
Theorem F_Data_evidence_fields (env : Env) (raw : string) (data : RawData) :
  outcome (F_Data env raw) = inr data ->
  targetUrl data = normalizeUrl raw
  /\ URL_hostname (targetUrl data) = Some (host data)
  /\ whoisDomain data = stripWww (host data)
  /\ ips data = resolved env (host data)
  /\ errors data
     = (errorOf "IP ERROR: " (dns_lookup env (host data))
        ++ geoErrors env (ips data)
        ++ errorOf "HTTP ERROR: " (http_exchange env (targetUrl data))
        ++ errorOf "SSL ERROR: " (tls_connect env (host data))
        ++ errorOf "WHOIS ERROR: " (whois_query env (whoisDomain data)))%list.
Proof.
  intros H.
  destruct (F_Data_returns URL_hostname formatRawTxt env raw data H)
    as (h & cwd & Hh & ->).
  unfold evidence. cbn [targetUrl host whoisDomain ips errors].
  repeat split; try reflexivity. exact Hh.
Qed.

(** X26.  On the evidence of a run, a missing field never goes alone: when
    [geo], [http], [tls] or [whois] is absent, [errors] is not empty, so
    the scorer adds the point for errors to the penalty of the absent
    field, and the score is at least 1. *)
Theorem F_Data_absence_costs (env : Env) (raw : string) (data : RawData) :
  outcome (F_Data env raw) = inr data ->
  (0 < absentOptionalFields data)%nat ->
  errors data <> []
  /\ penaltyOf checkErrors data = 1
  /\ 1 <= F_VF_score data.
Proof.
  intros H Habs.
  destruct (F_Data_returns URL_hostname formatRawTxt env raw data H)
    as (h & cwd & _ & ->).
  pose proof (evidence_errors_length env (normalizeUrl raw) h
                (reportPath env cwd h)) as L.
  set (d := evidence env (normalizeUrl raw) h (reportPath env cwd h)) in *.
  assert (N : errors d <> []).
  { intros E. rewrite E in L. cbn in L. lia. }
  split; [exact N|].
  assert (P : penaltyOf checkErrors d = 1).
  { unfold penaltyOf, checkErrors. destruct (errors d); [congruence|reflexivity]. }
  split; [exact P|].
  rewrite F_VF_score_split, P, penalty_https, penalty_status, penalty_tls,
    penalty_whois.
  pose proof (penalty_redirect_range URL_hostname d).
  destruct (isHttps d), (http d) as [x|], (tls d), (whois d);
    try destruct (400 <=? status x); lia.
Qed.

End AggregatorExtras.

Lemma https_tests_agree_witness :
  hasHttpPrefix (Js.trim "example.com") = false
  /\ isHttps (set_targetUrl (normalizeUrl "example.com") Scenario.dark) = true.
Proof.
  split; [reflexivity|].
  exact (proj1 (proj2 (https_tests_agree Scenario.dark "example.com")) eq_refl).
Defined.

Lemma F_Data_invalid_target_witness :
  Scenario.hostname (normalizeUrl "not a url") = None
  /\ run (F_Data Scenario.hostname Scenario.report Scenario.online "not a url")
     = (inl InvalidURL, []).
Proof.
  split; [reflexivity|].
  exact (proj1 (F_Data_invalid_target Scenario.hostname Scenario.report
                  Scenario.online "not a url") eq_refl).
Defined.

Lemma F_Data_lookup_order_witness :
  calls (F_Data Scenario.hostname Scenario.report Scenario.offline
                "http://example.com")
  = [Call_dns_lookup "example.com"; Call_httpRequest "http://example.com";
     Call_getTlsCert "example.com"; Call_whois "example.com";
     Call_mkdir "/home/user/output";
     Call_writeFile
       "/home/user/output/rawdata-example.com-20260101-120000.txt"
       "TARGET URL : http://example.com ERRORS: 5"].
Proof.
  rewrite (F_Data_lookup_order Scenario.hostname Scenario.report
             Scenario.offline "http://example.com" "example.com" eq_refl).
  reflexivity.
Defined.

Lemma F_Data_evidence_fields_witness :
  errors Scenario.dark
  = (errorOf "IP ERROR: " (dns_lookup Scenario.offline (host Scenario.dark))
     ++ geoErrors Scenario.offline (ips Scenario.dark)
     ++ errorOf "HTTP ERROR: "
                (http_exchange Scenario.offline (targetUrl Scenario.dark))
     ++ errorOf "SSL ERROR: " (tls_connect Scenario.offline (host Scenario.dark))
     ++ errorOf "WHOIS ERROR: "
                (whois_query Scenario.offline (whoisDomain Scenario.dark)))%list.
Proof.
  exact (proj2 (proj2 (proj2 (proj2
           (F_Data_evidence_fields Scenario.hostname Scenario.report
              Scenario.offline "http://example.com" Scenario.dark eq_refl))))).
Defined.

Lemma F_Data_absence_costs_witness :
  (0 < absentOptionalFields Scenario.dark)%nat
  /\ 1 <= F_VF_score Scenario.hostname Scenario.dark.
Proof.
  assert (A : (0 < absentOptionalFields Scenario.dark)%nat) by (cbn; lia).
  split; [exact A|].
  exact (proj2 (proj2
           (F_Data_absence_costs Scenario.hostname Scenario.report
              Scenario.offline "http://example.com" Scenario.dark eq_refl A))).
Defined.
